(** * Kinematics service capability of move_group: FK and IK request handlers

    Shallow embedding of
    [moveit_ros/move_group/src/default_capabilities/kinematics_service_capability.cpp]:
    [isIKSolutionValid], [MoveGroupKinematicsService::computeIK],
    [MoveGroupKinematicsService::computeIKService] and
    [MoveGroupKinematicsService::computeFKService].

    The handlers are sequential C++ that talks to collaborators living in other
    packages (robot state, planning scene monitor, TF, the IK solver).  Those
    collaborators are the fields of the class [Collaborators]; every call on
    them that matters for the request contract is recorded, in program order,
    in a trace of [Event]s threaded through a small state monad.

    The profiler of moveit_core ([moveit_core/profiler/src/profiler.cpp]) is
    embedded in [Module Profiler]. *)

From Stdlib Require Import List String Bool ZArith Arith Lia.
From Stdlib Require OrderedTypeEx.
Import ListNotations.
Local Open Scope string_scope.
Local Open Scope list_scope.

(** ** Messages *)

(** [moveit_msgs::msg::MoveItErrorCodes::val].  Only the constants the two
    handlers assign are listed; [UNDEFINED] is the value of a
    default-constructed message, before any handler wrote to it. *)
Inductive MoveItErrorCodes : Type :=
| UNDEFINED
| SUCCESS
| INVALID_GROUP_NAME
| INVALID_LINK_NAME
| NO_IK_SOLUTION
| FRAME_TRANSFORM_FAILURE.

(** ** Observable calls *)

(** The solver entry point that was called: the three [setFromIK] overloads
    used by [computeIK]. *)
Inductive IKCall : Type :=
| IKPose                               (* setFromIK(jmg, pose, timeout, cb) *)
| IKPoseTip (tip : string)             (* setFromIK(jmg, pose, tip, timeout, cb) *)
| IKPoses (tips : list string).        (* setFromIK(jmg, poses, tips, timeout, cb) *)

Inductive Event : Type :=
| EvUpdateFrameTransforms              (* planning_scene_monitor_->updateFrameTransforms() *)
| EvLockRO                             (* LockedPlanningSceneRO constructed *)
| EvUnlockRO                           (* LockedPlanningSceneRO destroyed *)
| EvGetCurrentState                    (* ls->getCurrentState() *)
| EvKsetAdd                            (* kset.add(constraints, ls->getTransforms()) *)
| EvGetJointModelGroup (group : string)
| EvRobotStateMsgToRobotState
| EvPerformTransform (frame_id target : string)
| EvSetFromIK (call : IKCall)
| EvRobotStateToRobotStateMsg
| EvLogError
| EvHasLinkModel (link : string)
| EvGetGlobalLinkTransform (link : string)
| EvClockNow
| EvSetJointGroupPositions
| EvUpdate
| EvIsStateColliding (group : string)
| EvDecide.

Definition is_lock_event (e : Event) : bool :=
  match e with EvLockRO | EvUnlockRO => true | _ => false end.

Definition is_solver_event (e : Event) : bool :=
  match e with EvSetFromIK _ => true | _ => false end.

Definition is_transform_event (e : Event) : bool :=
  match e with EvPerformTransform _ _ => true | _ => false end.

Definition is_solution_write (e : Event) : bool :=
  match e with EvRobotStateToRobotStateMsg => true | _ => false end.

(** Number of shared-read locks held after a history: constructions of
    [LockedPlanningSceneRO] not yet matched by a destruction. *)
Fixpoint lock_depth_from (d : nat) (tr : list Event) : nat :=
  match tr with
  | [] => d
  | EvLockRO :: tr' => lock_depth_from (S d) tr'
  | EvUnlockRO :: tr' => lock_depth_from (pred d) tr'
  | _ :: tr' => lock_depth_from d tr'
  end.

Definition lock_depth (tr : list Event) : nat := lock_depth_from 0 tr.

(** ** The trace monad *)

Definition M (A : Type) : Type := list Event -> A * list Event.

Definition ret {A : Type} (a : A) : M A := fun tr => (a, tr).

Definition bind {A B : Type} (m : M A) (k : A -> M B) : M B :=
  fun tr => let (a, tr') := m tr in k a tr'.

Definition emit (e : Event) : M unit := fun tr => (tt, tr ++ [e]).

Definition history : M (list Event) := fun tr => (tr, tr).

Declare Scope trace_scope.
Delimit Scope trace_scope with trace.
Notation "x <- c ;; k" := (bind c (fun x => k))
  (at level 61, c at next level, right associativity) : trace_scope.
Notation "c ;;; k" := (bind c (fun _ => k))
  (at level 61, right associativity) : trace_scope.
Local Open Scope trace_scope.

(** Result and events of a handler started on an empty history. *)
Definition run {A : Type} (m : M A) : A * list Event := m [].
Definition result {A : Type} (m : M A) : A := fst (run m).
Definition events {A : Type} (m : M A) : list Event := snd (run m).

(** ** Message records *)

Section Messages.
Variables Time Pose : Type.

Record Header : Type := mkHeader { stamp : Time; frame_id : string }.

Record PoseStamped : Type := mkPoseStamped { header : Header; pose : Pose }.
End Messages.

Arguments mkHeader {Time} _ _.
Arguments stamp {Time} _.
Arguments frame_id {Time} _.
Arguments mkPoseStamped {Time Pose} _ _.
Arguments header {Time Pose} _.
Arguments pose {Time Pose} _.

(** ** Collaborators

    Everything the handlers call that is defined outside the capability:
    [moveit::core::RobotState], [planning_scene::PlanningScene],
    [kinematic_constraints::KinematicConstraintSet], the planning scene
    monitor, TF and the node clock. *)
Class Collaborators : Type := {
  Time : Type;
  Pose : Type;                         (* geometry_msgs::msg::Pose *)
  Isometry3d : Type;                   (* Eigen::Isometry3d *)
  RobotStateMsg : Type;                (* moveit_msgs::msg::RobotState *)
  ConstraintsMsg : Type;               (* moveit_msgs::msg::Constraints *)
  RobotState : Type;                   (* moveit::core::RobotState *)
  JointModelGroup : Type;              (* const moveit::core::JointModelGroup* (non-null) *)
  JointValues : Type;                  (* const double* ik_solution *)
  PlanningScene : Type;
  Transforms : Type;
  KinematicConstraintSet : Type;

  (* moveit::core::isEmpty, on a RobotState message and on a Constraints message *)
  isEmpty_robot_state : RobotStateMsg -> bool;
  isEmpty_constraints : ConstraintsMsg -> bool;
  (* conversions.h *)
  robotStateMsgToRobotState : RobotStateMsg -> RobotState -> RobotState;
  robotStateToRobotStateMsg : RobotState -> RobotStateMsg -> bool -> RobotStateMsg;
  toMsg : Isometry3d -> Pose;
  fromMsg : Pose -> Isometry3d;

  (* moveit::core::RobotState / RobotModel *)
  getJointModelGroup : RobotState -> string -> option JointModelGroup;
  getName : JointModelGroup -> string;
  getModelFrame : string;
  setJointGroupPositions : RobotState -> JointModelGroup -> JointValues -> RobotState;
  update : RobotState -> RobotState;
  hasLinkModel : RobotState -> string -> bool;
  getGlobalLinkTransform : RobotState -> string -> Isometry3d;
  (* The three setFromIK overloads; each mutates the state it is called on
     and reports whether a solution was found.  The callback is the
     GroupStateValidityCallbackFn; None is the empty boost::function. *)
  setFromIK :
    RobotState -> JointModelGroup -> Pose -> Z ->
    option (RobotState -> JointModelGroup -> JointValues -> bool * RobotState) ->
    bool * RobotState;
  setFromIK_tip :
    RobotState -> JointModelGroup -> Pose -> string -> Z ->
    option (RobotState -> JointModelGroup -> JointValues -> bool * RobotState) ->
    bool * RobotState;
  setFromIK_poses :
    RobotState -> JointModelGroup -> list Isometry3d -> list string -> Z ->
    option (RobotState -> JointModelGroup -> JointValues -> bool * RobotState) ->
    bool * RobotState;

  (* planning_scene::PlanningScene *)
  isStateColliding : PlanningScene -> RobotState -> string -> bool;
  getCurrentState : PlanningScene -> RobotState;
  getTransforms : PlanningScene -> Transforms;

  (* kinematic_constraints::KinematicConstraintSet *)
  kset_new : KinematicConstraintSet;
  kset_add : KinematicConstraintSet -> ConstraintsMsg -> Transforms -> KinematicConstraintSet;
  kset_empty : KinematicConstraintSet -> bool;
  decide : KinematicConstraintSet -> RobotState -> bool;

  (* context_: the scene the monitor hands out under the read lock, TF, clock *)
  locked_scene : PlanningScene;
  getTFClient : bool;
  sameFrame : string -> string -> bool;
  tf_transform : PoseStamped Time Pose -> string -> option (PoseStamped Time Pose);
  clock_now : list Event -> Time
}.

Section Capability.
Context {C : Collaborators}.

Definition GroupStateValidityCallbackFn : Type :=
  option (RobotState -> JointModelGroup -> JointValues -> bool * RobotState).

(** builtin_interfaces::msg::Duration *)
Record Duration : Type := mkDuration { sec : Z; nanosec : Z }.

(** moveit_msgs::msg::PositionIKRequest *)
Record PositionIKRequest : Type := mkPositionIKRequest {
  group_name : string;
  robot_state : RobotStateMsg;
  constraints : ConstraintsMsg;
  avoid_collisions : bool;
  ik_link_name : string;
  pose_stamped : PoseStamped Time Pose;
  ik_link_names : list string;
  pose_stamped_vector : list (PoseStamped Time Pose);
  timeout : Duration
}.

(** moveit_msgs::srv::GetPositionIK::Response *)
Record GetPositionIK_Response : Type := mkIKResponse {
  solution : RobotStateMsg;
  error_code : MoveItErrorCodes
}.

(** moveit_msgs::srv::GetPositionFK::Request *)
Record GetPositionFK_Request : Type := mkFKRequest {
  fk_header : Header Time;
  fk_link_names : list string;
  fk_robot_state : RobotStateMsg
}.

(** moveit_msgs::srv::GetPositionFK::Response *)
Record GetPositionFK_Response : Type := mkFKResponse {
  res_pose_stamped : list (PoseStamped Time Pose);
  res_fk_link_names : list string;
  res_error_code : MoveItErrorCodes
}.

(** ** Calls on the collaborators, with their trace events *)

(** Modelled from the spec: [MoveGroupCapability::performTransform] is a
    member of the base class, defined outside these sources.  Spec 4.1: it
    re-expresses the pose in the target frame or fails, with no side effect;
    a failed call leaves the message as it was.  The in-out reference
    parameter is therefore an [option]: [Some] is the rewritten message of
    a call that returned true, [None] a call that returned false. *)
Definition performTransform (pose_msg : PoseStamped Time Pose) (target_frame : string)
  : M (option (PoseStamped Time Pose)) :=
  emit (EvPerformTransform (frame_id (header pose_msg)) target_frame) ;;;
  ret (tf_transform pose_msg target_frame).

Definition now : M Time :=
  tr <- history ;;
  emit EvClockNow ;;;
  ret (clock_now tr).

(** ** isIKSolutionValid (lines 71-80) *)

Definition isIKSolutionValid
    (planning_scene : option PlanningScene)
    (constraint_set : option KinematicConstraintSet)
    (state : RobotState) (jmg : JointModelGroup) (ik_solution : JointValues)
  : M (bool * RobotState) :=
  emit EvSetJointGroupPositions ;;;
  let state := setJointGroupPositions state jmg ik_solution in
  emit EvUpdate ;;;
  let state := update state in
  collision_free <-
    match planning_scene with
    | None => ret true
    | Some ps =>
        emit (EvIsStateColliding (getName jmg)) ;;;
        ret (negb (isStateColliding ps state (getName jmg)))
    end ;;
  if collision_free then
    match constraint_set with
    | None => ret (true, state)
    | Some cs =>
        emit EvDecide ;;;
        ret (decide cs state, state)
    end
  else ret (false, state).

(** The callback [boost::bind(&isIKSolutionValid, ps, cs, _1, _2, _3)] as the
    solver sees it: a function of state, group and candidate. *)
Definition bind_isIKSolutionValid
    (planning_scene : option PlanningScene)
    (constraint_set : option KinematicConstraintSet)
  : RobotState -> JointModelGroup -> JointValues -> bool * RobotState :=
  fun state jmg ik_solution =>
    result (isIKSolutionValid planning_scene constraint_set state jmg ik_solution).

(** ** computeIK (lines 83-159) *)

(** The in-out parameters [solution], [error_code] and [rs]. *)
Record IKOut : Type := mkIKOut {
  out_solution : RobotStateMsg;
  out_error_code : MoveItErrorCodes;
  out_rs : RobotState
}.

Definition set_error_code (o : IKOut) (v : MoveItErrorCodes) : IKOut :=
  mkIKOut (out_solution o) v (out_rs o).

(** Lines 113-119 and 146-152: what follows a solver call. *)
Definition after_solve (o : IKOut) (r : bool * RobotState) : M IKOut :=
  let (result_ik, rs) := r in
  if result_ik then
    emit EvRobotStateToRobotStateMsg ;;;
    ret (mkIKOut (robotStateToRobotStateMsg rs (out_solution o) false) SUCCESS rs)
  else ret (mkIKOut (out_solution o) NO_IK_SOLUTION rs).

(** Lines 132-143: the loop over [pose_stamped_vector].  Returns [ok], the
    poses converted so far and the error code; stops at the first pose that
    does not transform. *)
Fixpoint transform_poses (msgs : list (PoseStamped Time Pose)) (default_frame : string)
    (req_poses : list Isometry3d) (error_code : MoveItErrorCodes)
  : M (bool * list Isometry3d * MoveItErrorCodes) :=
  match msgs with
  | [] => ret (true, req_poses, error_code)
  | msg :: rest =>
      r <- performTransform msg default_frame ;;
      match r with
      | Some msg' =>
          transform_poses rest default_frame (req_poses ++ [fromMsg (pose msg')]) error_code
      | None => ret (false, req_poses, FRAME_TRANSFORM_FAILURE)
      end
  end.

(** Lines 91-94: merge the request's robot state, when it has one. *)
Definition merge_request_state (req : PositionIKRequest) (o : IKOut) : M IKOut :=
  if negb (isEmpty_robot_state (robot_state req)) then
    emit EvRobotStateMsgToRobotState ;;;
    ret (mkIKOut (out_solution o) (out_error_code o)
           (robotStateMsgToRobotState (robot_state req) (out_rs o)))
  else ret o.

(** Lines 99-100: the pose of a request with at most one vector entry. *)
Definition single_pose (req : PositionIKRequest) : PoseStamped Time Pose :=
  match pose_stamped_vector req with
  | [] => pose_stamped req
  | p :: _ => p
  end.

(** Lines 101-103. *)
Definition single_ik_link (req : PositionIKRequest) : string :=
  match pose_stamped_vector req with
  | [] => ik_link_name req
  | _ :: _ => match ik_link_names req with [] => "" | l :: _ => l end
  end.

(** Lines 99-122: zero or one entry in [pose_stamped_vector]. *)
Definition computeIK_single (req : PositionIKRequest) (o : IKOut)
    (jmg : JointModelGroup) (constraint : GroupStateValidityCallbackFn)
    (default_frame : string) : M IKOut :=
  let req_pose := single_pose req in
  let ik_link := single_ik_link req in
  r <- performTransform req_pose default_frame ;;
  match r with
  | Some req_pose =>
      if String.eqb ik_link "" then
        emit (EvSetFromIK IKPose) ;;;
        after_solve o
          (setFromIK (out_rs o) jmg (pose req_pose) (sec (timeout req)) constraint)
      else
        emit (EvSetFromIK (IKPoseTip ik_link)) ;;;
        after_solve o
          (setFromIK_tip (out_rs o) jmg (pose req_pose) ik_link
             (sec (timeout req)) constraint)
  | None => ret (set_error_code o FRAME_TRANSFORM_FAILURE)
  end.

(** Lines 126-154: two or more entries in [pose_stamped_vector]. *)
Definition computeIK_multi (req : PositionIKRequest) (o : IKOut)
    (jmg : JointModelGroup) (constraint : GroupStateValidityCallbackFn)
    (default_frame : string) : M IKOut :=
  if negb (List.length (pose_stamped_vector req) =? List.length (ik_link_names req))%nat then
    ret (set_error_code o INVALID_LINK_NAME)
  else
    r <- transform_poses (pose_stamped_vector req) default_frame []
           (out_error_code o) ;;
    let '(ok, req_poses, ec) := r in
    let o := set_error_code o ec in
    if ok then
      emit (EvSetFromIK (IKPoses (ik_link_names req))) ;;;
      after_solve o
        (setFromIK_poses (out_rs o) jmg req_poses (ik_link_names req)
           (sec (timeout req)) constraint)
    else ret o.

Definition computeIK (req : PositionIKRequest) (o : IKOut)
    (constraint : GroupStateValidityCallbackFn) : M IKOut :=
  emit (EvGetJointModelGroup (group_name req)) ;;;
  match getJointModelGroup (out_rs o) (group_name req) with
  | Some jmg =>
      o <- merge_request_state req o ;;
      let default_frame := getModelFrame in
      match pose_stamped_vector req with
      | [] | [_] => computeIK_single req o jmg constraint default_frame
      | _ => computeIK_multi req o jmg constraint default_frame
      end
  | None => ret (set_error_code o INVALID_GROUP_NAME)
  end.

(** ** computeIKService (lines 161-191) *)

Definition computeIKService (req : PositionIKRequest) (res : GetPositionIK_Response)
  : M (bool * GetPositionIK_Response) :=
  emit EvUpdateFrameTransforms ;;;
  if avoid_collisions req || negb (isEmpty_constraints (constraints req)) then
    (* the scope of [ls]: the lock is released when the block is left *)
    emit EvLockRO ;;;
    let ls := locked_scene in
    let kset := kset_new in
    emit EvGetCurrentState ;;;
    let rs := getCurrentState ls in
    emit EvKsetAdd ;;;
    let kset := kset_add kset (constraints req) (getTransforms ls) in
    o <- computeIK req (mkIKOut (solution res) (error_code res) rs)
           (Some (bind_isIKSolutionValid
                    (if avoid_collisions req then Some ls else None)
                    (if kset_empty kset then None else Some kset))) ;;
    emit EvUnlockRO ;;;
    ret (true, mkIKResponse (out_solution o) (out_error_code o))
  else
    (* the temporary LockedPlanningSceneRO lives for one full-expression *)
    emit EvLockRO ;;;
    emit EvGetCurrentState ;;;
    let rs := getCurrentState locked_scene in
    emit EvUnlockRO ;;;
    o <- computeIK req (mkIKOut (solution res) (error_code res) rs) None ;;
    ret (true, mkIKResponse (out_solution o) (out_error_code o)).

(** ** computeFKService (lines 193-234) *)

(** Lines 215-226: the loop over the requested link names.  Carries the
    response lists and [tf_problem]. *)
Fixpoint fk_links (names : list string) (rs : RobotState) (do_transform : bool)
    (target_frame default_frame : string)
    (poses : list (PoseStamped Time Pose)) (links : list string) (tf_problem : bool)
  : M (list (PoseStamped Time Pose) * list string * bool) :=
  match names with
  | [] => ret (poses, links, tf_problem)
  | name :: rest =>
      emit (EvHasLinkModel name) ;;;
      if hasLinkModel rs name then
        emit (EvGetGlobalLinkTransform name) ;;;
        let p := toMsg (getGlobalLinkTransform rs name) in
        t <- now ;;
        let back := mkPoseStamped (mkHeader t default_frame) p in
        bt <- (if do_transform then
                 r <- performTransform back target_frame ;;
                 match r with
                 | Some back' => ret (back', tf_problem)
                 | None => ret (back, true)
                 end
               else ret (back, tf_problem)) ;;
        let (back, tf_problem) := bt in
        fk_links rest rs do_transform target_frame default_frame
          (poses ++ [back]) (links ++ [name]) tf_problem
      else
        fk_links rest rs do_transform target_frame default_frame poses links tf_problem
  end.

(** Lines 207-209. *)
Definition fk_do_transform (req : GetPositionFK_Request) : bool :=
  negb (String.eqb (frame_id (fk_header req)) "") &&
  negb (sameFrame (frame_id (fk_header req)) getModelFrame) &&
  getTFClient.

(** Lines 204-233: the handler past the empty-list guard. *)
Definition computeFK_links (req : GetPositionFK_Request) (res : GetPositionFK_Response)
  : M (bool * GetPositionFK_Response) :=
  emit EvUpdateFrameTransforms ;;;
  let default_frame := getModelFrame in
  let do_transform := fk_do_transform req in
  let tf_problem := false in
  emit EvLockRO ;;;
  emit EvGetCurrentState ;;;
  let rs := getCurrentState locked_scene in
  emit EvUnlockRO ;;;
  emit EvRobotStateMsgToRobotState ;;;
  let rs := robotStateMsgToRobotState (fk_robot_state req) rs in
  r <- fk_links (fk_link_names req) rs do_transform (frame_id (fk_header req))
         default_frame (res_pose_stamped res) (res_fk_link_names res) tf_problem ;;
  let '(poses, links, tf_problem) := r in
  let ec :=
    if tf_problem then FRAME_TRANSFORM_FAILURE
    else if (List.length links =? List.length (fk_link_names req))%nat then SUCCESS
    else INVALID_LINK_NAME in
  ret (true, mkFKResponse poses links ec).

Definition computeFKService (req : GetPositionFK_Request) (res : GetPositionFK_Response)
  : M (bool * GetPositionFK_Response) :=
  match fk_link_names req with
  | [] =>
      emit EvLogError ;;;
      ret (true, mkFKResponse (res_pose_stamped res) (res_fk_link_names res)
                   INVALID_LINK_NAME)
  | _ :: _ => computeFK_links req res
  end.

(** The robot state the FK loop reads: the current state with the request's
    state merged in (lines 212-214). *)
Definition fk_state (req : GetPositionFK_Request) : RobotState :=
  robotStateMsgToRobotState (fk_robot_state req) (getCurrentState locked_scene).

(** Default-constructed responses, as the service layer hands them to the
    handlers. *)
Definition fresh_fk_response : GetPositionFK_Response := mkFKResponse [] [] UNDEFINED.
End Capability.


Arguments PositionIKRequest : clear implicits.
Arguments GetPositionIK_Response : clear implicits.
Arguments GetPositionFK_Request : clear implicits.
Arguments GetPositionFK_Response : clear implicits.

(** * Vocabulary of the properties *)

(** A computation is framed when it only appends to the history and does not
    look at it. *)
Definition framed {A : Type} (m : M A) : Prop :=
  forall tr, m tr = (fst (m []), tr ++ snd (m [])).

(** [only P m]: whatever the history, [m] appends events that all satisfy [P]. *)
Definition only (P : Event -> bool) {A : Type} (m : M A) : Prop :=
  forall tr, exists evs, snd (m tr) = tr ++ evs /\ forallb P evs = true.

(** Lock depths at which the solver is entered along a history. *)
Fixpoint solver_depths (d : nat) (tr : list Event) : list nat :=
  match tr with
  | [] => []
  | EvLockRO :: tr' => solver_depths (S d) tr'
  | EvUnlockRO :: tr' => solver_depths (pred d) tr'
  | EvSetFromIK _ :: tr' => d :: solver_depths d tr'
  | _ :: tr' => solver_depths d tr'
  end.

Section Vocabulary.
Context {C : Collaborators}.

Definition not_lock (e : Event) : bool := negb (is_lock_event e).

(** The configuration a candidate is tested on. *)
Definition candidate_state (state : RobotState) (jmg : JointModelGroup)
    (ik_solution : JointValues) : RobotState :=
  update (setJointGroupPositions state jmg ik_solution).

Definition collision_free (planning_scene : option PlanningScene)
    (st : RobotState) (jmg : JointModelGroup) : bool :=
  match planning_scene with
  | None => true
  | Some ps => negb (isStateColliding ps st (getName jmg))
  end.

Definition constraints_satisfied (constraint_set : option KinematicConstraintSet)
    (st : RobotState) : bool :=
  match constraint_set with
  | None => true
  | Some cs => decide cs st
  end.

(** Line 168: whether the planning scene is kept locked. *)
Definition keeps_lock (req : PositionIKRequest C) : bool :=
  avoid_collisions req || negb (isEmpty_constraints (constraints req)).

(** The in-out arguments [computeIK] starts from: the response fields and a
    copy of the current state. *)
Definition ik_out0 (res : GetPositionIK_Response C) : IKOut :=
  mkIKOut (solution res) (error_code res) (getCurrentState locked_scene).

(** The constraint set built on lines 171 and 173. *)
Definition ik_kset (req : PositionIKRequest C) : KinematicConstraintSet :=
  kset_add kset_new (constraints req) (getTransforms locked_scene).

(** The callback handed to [computeIK]: lines 175-180, or the default
    argument (an empty function) on line 187. *)
Definition ik_callback (req : PositionIKRequest C) : GroupStateValidityCallbackFn :=
  if keeps_lock req then
    Some (bind_isIKSolutionValid
            (if avoid_collisions req then Some locked_scene else None)
            (if kset_empty (ik_kset req) then None else Some (ik_kset req)))
  else None.

Definition ik_body (req : PositionIKRequest C) (res : GetPositionIK_Response C) : M IKOut :=
  computeIK req (ik_out0 res) (ik_callback req).

Definition locked_prefix : list Event :=
  [EvUpdateFrameTransforms; EvLockRO; EvGetCurrentState; EvKsetAdd].

Definition snapshot_prefix : list Event :=
  [EvUpdateFrameTransforms; EvLockRO; EvGetCurrentState; EvUnlockRO].

Definition transforms_ok (df : string) (q : PoseStamped Time Pose) : bool :=
  match tf_transform q df with Some _ => true | None => false end.

Definition transform_event (df : string) (q : PoseStamped Time Pose) : Event :=
  EvPerformTransform (frame_id (header q)) df.

(** The poses [performTransform] is called on: all of them up to and
    including the first one that fails. *)
Fixpoint attempted (df : string) (msgs : list (PoseStamped Time Pose))
  : list (PoseStamped Time Pose) :=
  match msgs with
  | [] => []
  | q :: rest => q :: (if transforms_ok df q then attempted df rest else [])
  end.

Definition merged (req : PositionIKRequest C) (o : IKOut) : IKOut :=
  if negb (isEmpty_robot_state (robot_state req)) then
    mkIKOut (out_solution o) (out_error_code o)
      (robotStateMsgToRobotState (robot_state req) (out_rs o))
  else o.

Definition merge_events (req : PositionIKRequest C) : list Event :=
  if negb (isEmpty_robot_state (robot_state req))
  then [EvRobotStateMsgToRobotState] else [].

Definition solved (o : IKOut) (r : bool * RobotState) : IKOut :=
  if fst r
  then mkIKOut (robotStateToRobotStateMsg (snd r) (out_solution o) false) SUCCESS (snd r)
  else mkIKOut (out_solution o) NO_IK_SOLUTION (snd r).

Definition solved_events (r : bool * RobotState) : list Event :=
  if fst r then [EvRobotStateToRobotStateMsg] else [].

(** The solver call of the single-pose branch. *)
Definition single_call (req : PositionIKRequest C) : IKCall :=
  if String.eqb (single_ik_link req) "" then IKPose else IKPoseTip (single_ik_link req).

Definition single_solve (req : PositionIKRequest C) (o : IKOut) (jmg : JointModelGroup)
    (cb : GroupStateValidityCallbackFn) (p : PoseStamped Time Pose) : bool * RobotState :=
  if String.eqb (single_ik_link req) ""
  then setFromIK (out_rs o) jmg (pose p) (sec (timeout req)) cb
  else setFromIK_tip (out_rs o) jmg (pose p) (single_ik_link req) (sec (timeout req)) cb.

(** More than one entry in [pose_stamped_vector]. *)
Definition multi_pose (req : PositionIKRequest C) : bool :=
  (1 <? List.length (pose_stamped_vector req))%nat.

(** The branch [computeIK] takes once the group is resolved. *)
Definition ik_branch (req : PositionIKRequest C) (o : IKOut) (jmg : JointModelGroup)
    (cb : GroupStateValidityCallbackFn) : M IKOut :=
  if multi_pose req
  then computeIK_multi req (merged req o) jmg cb getModelFrame
  else computeIK_single req (merged req o) jmg cb getModelFrame.

(** Event classes that the lock scope itself does not contain. *)
Definition body_only (P : Event -> bool) : Prop :=
  P EvUpdateFrameTransforms = false /\ P EvLockRO = false /\ P EvGetCurrentState = false
  /\ P EvKsetAdd = false /\ P EvUnlockRO = false.

(** The solver call that produced [rs'], in either branch. *)
Definition solver_returned (req : PositionIKRequest C) (o : IKOut) (jmg : JointModelGroup)
    (cb : GroupStateValidityCallbackFn) (rs' : RobotState) : Prop :=
  (exists p, single_solve req (merged req o) jmg cb p = (true, rs'))
  \/ (exists req_poses,
        setFromIK_poses (out_rs (merged req o)) jmg req_poses (ik_link_names req)
          (sec (timeout req)) cb = (true, rs')).

(** The poses a request asks the solver to reach. *)
Definition ik_poses (req : PositionIKRequest C) : list (PoseStamped Time Pose) :=
  if multi_pose req then pose_stamped_vector req else [single_pose req].

(** The assumption on the solver: the state it leaves behind when it
    reports success is one its validity callback accepted. *)
Definition solver_respects_callback : Prop :=
  (forall rs jmg x t cb rs',
      setFromIK rs jmg x t (Some cb) = (true, rs') ->
      exists st sol, cb st jmg sol = (true, rs'))
  /\ (forall rs jmg x tip t cb rs',
      setFromIK_tip rs jmg x tip t (Some cb) = (true, rs') ->
      exists st sol, cb st jmg sol = (true, rs'))
  /\ (forall rs jmg xs tips t cb rs',
      setFromIK_poses rs jmg xs tips t (Some cb) = (true, rs') ->
      exists st sol, cb st jmg sol = (true, rs')).

(** The pose of a link in the model frame, stamped [t] (lines 218-221). *)
Definition default_pose (rs : RobotState) (name : string) (t : Time)
  : PoseStamped Time Pose :=
  mkPoseStamped (mkHeader t getModelFrame) (toMsg (getGlobalLinkTransform rs name)).

(** The response entry of a matched link and whether its transform failed
    (lines 222-224). *)
Definition fk_entry (rs : RobotState) (do_transform : bool) (target : string)
    (nt : string * Time) : PoseStamped Time Pose * bool :=
  let back := default_pose rs (fst nt) (snd nt) in
  if do_transform then
    match tf_transform back target with
    | Some back' => (back', false)
    | None => (back, true)
    end
  else (back, false).

Definition fk_entries (rs : RobotState) (do_transform : bool) (target : string)
    (names : list string) (ts : list Time) : list (PoseStamped Time Pose * bool) :=
  map (fk_entry rs do_transform target) (combine (filter (hasLinkModel rs) names) ts).

(** How a response pose relates to its link: the link's pose in the model
    frame, re-expressed in the requested frame when a transform was asked
    for and worked, and left in the model frame otherwise. *)
Definition fk_pose_of (req : GetPositionFK_Request C) (name : string)
    (ps : PoseStamped Time Pose) : Prop :=
  exists t,
    let back := default_pose (fk_state req) name t in
    if fk_do_transform req then
      match tf_transform back (frame_id (fk_header req)) with
      | Some back' => ps = back'
      | None => ps = back
      end
    else ps = back.
End Vocabulary.

(** * A small concrete robot

    One prismatic joint [q] whose tip sits at [|q|], so a target [x] has the
    two candidate solutions [x] and [-x]; targets beyond 10 are out of reach.
    The scene lists the joint values that collide.  Frames "base" (the model
    frame) and "map" are known to TF, any other frame is not. *)
Module Bench.

Record Scene : Type := mkScene { current : list Z; colliding : list Z }.

Definition accepts (cb : option (list Z -> string -> list Z -> bool * list Z))
    (rs : list Z) (jmg : string) (sol : list Z) : bool * list Z :=
  match cb with
  | None => (true, sol)
  | Some f => f rs jmg sol
  end.

(** Tries the candidates in order and keeps the first one the validity
    callback accepts. *)
Fixpoint search (cb : option (list Z -> string -> list Z -> bool * list Z))
    (rs : list Z) (jmg : string) (candidates : list (list Z)) : bool * list Z :=
  match candidates with
  | [] => (false, rs)
  | sol :: rest =>
      let (ok, rs') := accepts cb rs jmg sol in
      if ok then (true, rs') else search cb rs' jmg rest
  end.

Definition candidates (x : Z) : list (list Z) :=
  if (Z.abs x <=? 10)%Z then [[x]; [(- x)%Z]] else [].

Definition known_frame (f : string) : bool :=
  String.eqb f "" || String.eqb f "base" || String.eqb f "map".

Definition robot (scene : Scene) : Collaborators := {|
  Time := nat;
  Pose := Z;
  Isometry3d := Z;
  RobotStateMsg := list Z;
  ConstraintsMsg := list Z;
  RobotState := list Z;
  JointModelGroup := string;
  JointValues := list Z;
  PlanningScene := Scene;
  Transforms := unit;
  KinematicConstraintSet := list Z;
  isEmpty_robot_state := fun m => match m with [] => true | _ => false end;
  isEmpty_constraints := fun m => match m with [] => true | _ => false end;
  robotStateMsgToRobotState := fun m rs => match m with [] => rs | _ => m end;
  robotStateToRobotStateMsg := fun rs _ _ => rs;
  toMsg := fun t => t;
  fromMsg := fun p => p;
  getJointModelGroup := fun _ g => if String.eqb g "arm" then Some g else None;
  getName := fun g => g;
  getModelFrame := "base";
  setJointGroupPositions := fun _ _ sol => sol;
  update := fun rs => rs;
  hasLinkModel := fun _ l => String.eqb l "gripper" || String.eqb l "elbow";
  getGlobalLinkTransform := fun rs l =>
    if String.eqb l "gripper" then Z.abs (hd 0%Z rs) else 0%Z;
  setFromIK := fun rs jmg x _ cb => search cb rs jmg (candidates x);
  setFromIK_tip := fun rs jmg x _ _ cb => search cb rs jmg (candidates x);
  setFromIK_poses := fun rs jmg xs _ _ cb => search cb rs jmg (candidates (hd 0%Z xs));
  isStateColliding := fun ps rs _ => existsb (fun q => existsb (Z.eqb q) (colliding ps)) rs;
  getCurrentState := current;
  getTransforms := fun _ => tt;
  kset_new := [];
  kset_add := fun k m _ => k ++ m;
  kset_empty := fun k => match k with [] => true | _ => false end;
  decide := fun k rs => forallb (fun q => forallb (fun hi => (q <=? hi)%Z) k) rs;
  locked_scene := scene;
  getTFClient := true;
  sameFrame := String.eqb;
  tf_transform := fun p target =>
    if known_frame (frame_id (header p)) && known_frame target then
      Some (mkPoseStamped (mkHeader (stamp (header p)) target) (pose p))
    else None;
  clock_now := fun tr => List.length tr
|}.

Definition scene0 : Scene := mkScene [0%Z] [3%Z].

(** The robot with joint value 0, colliding at joint value 3. *)
Definition arm : Collaborators := robot scene0.

Definition at_frame (f : string) (x : Z) : PoseStamped nat Z :=
  mkPoseStamped (mkHeader 0%nat f) x.

Definition ik_request (group : string) (avoid : bool) (cs : list Z)
    (link : string) (p : PoseStamped nat Z)
    (links : list string) (ps : list (PoseStamped nat Z))
  : PositionIKRequest arm :=
  mkPositionIKRequest (C := arm) group [] cs avoid link p links ps (mkDuration 1 0).

Definition fresh_ik_response : GetPositionIK_Response arm :=
  mkIKResponse (C := arm) [] UNDEFINED.

Definition fk_request (frame : string) (links : list string)
  : GetPositionFK_Request arm :=
  mkFKRequest (C := arm) (mkHeader 0%nat frame) links [].

(** An unknown group, with a pose in a frame TF does not know. *)
Definition req_unknown_group : PositionIKRequest arm :=
  ik_request "bogus" false [] "" (at_frame "mars" 3) [] [].

(** An unknown group, two poses and one link name. *)
Definition req_unknown_group_mismatch : PositionIKRequest arm :=
  ik_request "bogus" false [] "" (at_frame "base" 0) ["tip"]
    [at_frame "map" 4; at_frame "base" 3].

(** Two poses, the second in an unknown frame, and one link name. *)
Definition req_mismatch : PositionIKRequest arm :=
  ik_request "arm" false [] "" (at_frame "base" 0) ["tip"]
    [at_frame "map" 4; at_frame "mars" 3].

(** Three poses with three link names; the second pose is in an unknown frame. *)
Definition req_bad_frame : PositionIKRequest arm :=
  ik_request "arm" false [] "" (at_frame "base" 0) ["a"; "b"; "c"]
    [at_frame "map" 4; at_frame "mars" 3; at_frame "map" 1].

(** Collision avoidance, target 3: the candidate 3 collides, -3 does not. *)
Definition req_avoid : PositionIKRequest arm :=
  ik_request "arm" true [] "" (at_frame "base" 3) [] [].

Definition fk_no_links : GetPositionFK_Request arm := fk_request "map" [].

(** A known and an unknown link, poses wanted in a frame TF does not know. *)
Definition fk_bad_frame : GetPositionFK_Request arm :=
  fk_request "mars" ["gripper"; "bogus_link"].

End Bench.

(** * Further vocabulary: dispatch, traces and request variants *)

Section DispatchVocabulary.
Context {C : Collaborators}.

(** The poses the multi-pose loop hands to the solver: [tf2::fromMsg] of each
    transformed message, up to the first pose that does not transform. *)
Fixpoint converted (df : string) (msgs : list (PoseStamped Time Pose)) : list Isometry3d :=
  match msgs with
  | [] => []
  | q :: rest =>
      match tf_transform q df with
      | Some q' => fromMsg (pose q') :: converted df rest
      | None => []
      end
  end.

(** How the trace of [computeIK] may end, and the error code that goes with
    each ending. *)
Definition ik_ending (code : MoveItErrorCodes) (tail : list Event) : Prop :=
  (tail = []
   /\ (code = INVALID_GROUP_NAME \/ code = INVALID_LINK_NAME
       \/ code = FRAME_TRANSFORM_FAILURE))
  \/ (exists call, tail = [EvSetFromIK call] /\ code = NO_IK_SOLUTION)
  \/ (exists call, tail = [EvSetFromIK call; EvRobotStateToRobotStateMsg]
                   /\ code = SUCCESS).

(** The request with the nanoseconds of its timeout replaced. *)
Definition with_timeout_nanosec (req : PositionIKRequest C) (ns : Z) : PositionIKRequest C :=
  mkPositionIKRequest (group_name req) (robot_state req) (constraints req)
    (avoid_collisions req) (ik_link_name req) (pose_stamped req) (ik_link_names req)
    (pose_stamped_vector req) (mkDuration (sec (timeout req)) ns).

(** The request that carries pose [p] and link name [l] in its scalar fields
    and nothing in its vectors. *)
Definition as_scalar_request (req : PositionIKRequest C) (p : PoseStamped Time Pose)
    (l : string) : PositionIKRequest C :=
  mkPositionIKRequest (group_name req) (robot_state req) (constraints req)
    (avoid_collisions req) l p [] [] (timeout req).

(** The calls the FK loop makes for one requested link name. *)
Definition link_events (rs : RobotState) (do_transform : bool) (target name : string)
  : list Event :=
  EvHasLinkModel name
  :: (if hasLinkModel rs name then
        [EvGetGlobalLinkTransform name; EvClockNow]
          ++ (if do_transform then [EvPerformTransform getModelFrame target] else [])
      else []).

(** What every FK request with link names does before its loop: refresh the
    transforms, copy the current state under the lock, release the lock, merge
    the request's robot state. *)
Definition fk_prologue : list Event :=
  [EvUpdateFrameTransforms; EvLockRO; EvGetCurrentState; EvUnlockRO;
   EvRobotStateMsgToRobotState].
End DispatchVocabulary.

(** * The profiler: moveit_core/profiler/src/profiler.cpp

    The profiler keeps, per thread, named event counters, named averages and
    named timers, plus one overall timer, all behind one mutex.  The
    declarations of [profiler.h] are not part of the sources at hand: the
    field lists below are the fields [profiler.cpp] reads and writes, and what
    the header alone defines ([TimeInfo]'s constructor, [set] and [update],
    the arithmetic of [double] and of [boost::posix_time::time_duration], the
    order on thread ids, the width of [unsigned long]) is a field of
    [ProfilerParams]. *)
Module Profiler.
Local Open Scope Z_scope.

(** ** [std::map], as the list of its entries in key order *)
Section StdMap.
Variables K V : Type.
Variables eqb ltb : K -> K -> bool.

(** [m.find(k)]. *)
Fixpoint find (k : K) (m : list (K * V)) : option V :=
  match m with
  | [] => None
  | (k', v) :: rest => if eqb k k' then Some v else find k rest
  end.

(** [m[k] = f(m[k])]: [operator[]] inserts a value-initialised entry at the
    place the key order gives it when the key is absent, then the entry is
    updated in place. *)
Fixpoint at_key (k : K) (default : V) (f : V -> V) (m : list (K * V)) : list (K * V) :=
  match m with
  | [] => [(k, f default)]
  | (k', v) :: rest =>
      if eqb k k' then (k', f v) :: rest
      else if ltb k k' then (k, f default) :: (k', v) :: rest
      else (k', v) :: at_key k default f rest
  end.

(** The invariant of a [std::map]: keys strictly increasing. *)
Fixpoint is_map (m : list (K * V)) : bool :=
  match m with
  | [] => true
  | (k, _) :: rest =>
      match rest with
      | [] => true
      | (k', _) :: _ => ltb k k' && is_map rest
      end
  end.
End StdMap.

Arguments find {K V} eqb k m.
Arguments at_key {K V} eqb ltb k default f m.
Arguments is_map {K V} ltb m.

(** What a key type must offer: an equality test and a strict total order. *)
Record KeyOrder {K : Type} (eqb ltb : K -> K -> bool) : Prop := mkKeyOrder {
  key_eqb_eq : forall a b, eqb a b = true <-> a = b;
  key_ltb_irrefl : forall a, ltb a a = false;
  key_ltb_trans : forall a b c, ltb a b = true -> ltb b c = true -> ltb a c = true;
  key_ltb_total : forall a b, eqb a b = false -> ltb a b = false -> ltb b a = true
}.

(** ** The structs of the header, by the fields the source uses *)

(** [struct TimeInfo]: total, shortest and longest duration, number of parts,
    and the start time that [set] records. *)
Record TimeInfo (Duration PTime : Type) : Type := mkTimeInfo {
  ti_total : Duration;
  ti_shortest : Duration;
  ti_longest : Duration;
  ti_parts : Z;
  ti_start : PTime
}.

Arguments mkTimeInfo {Duration PTime} _ _ _ _ _.
Arguments ti_total {Duration PTime} _.
Arguments ti_shortest {Duration PTime} _.
Arguments ti_longest {Duration PTime} _.
Arguments ti_parts {Duration PTime} _.
Arguments ti_start {Duration PTime} _.

(** [struct AvgInfo]. *)
Record AvgInfo (Double : Type) : Type := mkAvgInfo {
  avg_total : Double;
  avg_totalSqr : Double;
  avg_parts : Z
}.

Arguments mkAvgInfo {Double} _ _ _.
Arguments avg_total {Double} _.
Arguments avg_totalSqr {Double} _.
Arguments avg_parts {Double} _.

Class ProfilerParams : Type := {
  ulong_bits : Z;                      (* width of unsigned long int *)
  ThreadId : Type;                     (* boost::thread::id *)
  tid_eqb : ThreadId -> ThreadId -> bool;
  tid_ltb : ThreadId -> ThreadId -> bool;
  tid_order : KeyOrder tid_eqb tid_ltb;
  Double : Type;
  dbl_zero : Double;
  dbl_add : Double -> Double -> Double;
  dbl_mul : Double -> Double -> Double;
  Duration : Type;                     (* boost::posix_time::time_duration *)
  dur_add : Duration -> Duration -> Duration;
  dur_ltb : Duration -> Duration -> bool;
  PTime : Type;                        (* boost::posix_time::ptime, a clock reading *)
  TimeInfo_new : TimeInfo Duration PTime;          (* TimeInfo() *)
  TimeInfo_set : PTime -> TimeInfo Duration PTime -> TimeInfo Duration PTime;
  TimeInfo_update : PTime -> TimeInfo Duration PTime -> TimeInfo Duration PTime
}.

Section Model.
Context {P : ProfilerParams}.

(** Arithmetic of [unsigned long int]. *)
Definition ulong (z : Z) : Z := z mod 2 ^ ulong_bits.

(** [struct PerThread]. *)
Record PerThread : Type := mkPerThread {
  events : list (string * Z);
  avg : list (string * AvgInfo Double);
  time : list (string * TimeInfo Duration PTime)
}.

Definition PerThread_new : PerThread := mkPerThread [] [] [].

Definition AvgInfo_new : AvgInfo Double := mkAvgInfo dbl_zero dbl_zero 0.

(** The data members of [class Profiler]; [lock_] is true while the mutex is
    held. *)
Record Profiler : Type := mkProfiler {
  lock_ : bool;
  running_ : bool;
  tinfo_ : TimeInfo Duration PTime;
  data_ : list (ThreadId * PerThread);
  printOnDestroy_ : bool
}.

(** [lock_.lock()]: the mutex is not recursive, so locking it while it is
    held never returns. *)
Definition lock (p : Profiler) : option Profiler :=
  if lock_ p then None
  else Some (mkProfiler true (running_ p) (tinfo_ p) (data_ p) (printOnDestroy_ p)).

(** [lock_.unlock()]. *)
Definition unlock (p : Profiler) : Profiler :=
  mkProfiler false (running_ p) (tinfo_ p) (data_ p) (printOnDestroy_ p).

Definition set_data (p : Profiler) (d : list (ThreadId * PerThread)) : Profiler :=
  mkProfiler (lock_ p) (running_ p) (tinfo_ p) d (printOnDestroy_ p).

(** [data_[boost::this_thread::get_id()]] updated by [f]. *)
Definition on_thread (tid : ThreadId) (f : PerThread -> PerThread) (p : Profiler) : Profiler :=
  set_data p (at_key tid_eqb tid_ltb tid PerThread_new f (data_ p)).

(** Lines 56-65.  [now] is the clock reading [tinfo_.set()] takes. *)
Definition start (now : PTime) (p : Profiler) : option Profiler :=
  match lock p with
  | None => None
  | Some p =>
      let p :=
        if negb (running_ p)
        then mkProfiler (lock_ p) true (TimeInfo_set now (tinfo_ p)) (data_ p)
               (printOnDestroy_ p)
        else p in
      Some (unlock p)
  end.

(** Lines 67-76. *)
Definition stop (now : PTime) (p : Profiler) : option Profiler :=
  match lock p with
  | None => None
  | Some p =>
      let p :=
        if running_ p
        then mkProfiler (lock_ p) false (TimeInfo_update now (tinfo_ p)) (data_ p)
               (printOnDestroy_ p)
        else p in
      Some (unlock p)
  end.

(** Lines 78-86. *)
Definition clear (now : PTime) (p : Profiler) : option Profiler :=
  match lock p with
  | None => None
  | Some p =>
      let tinfo := TimeInfo_new in
      let tinfo := if running_ p then TimeInfo_set now tinfo else tinfo in
      Some (unlock (mkProfiler (lock_ p) (running_ p) tinfo [] (printOnDestroy_ p)))
  end.

(** Lines 88-93: [data_[tid].events[name] += times]. *)
Definition event (tid : ThreadId) (name : string) (times : Z) (p : Profiler)
  : option Profiler :=
  match lock p with
  | None => None
  | Some p =>
      Some (unlock (on_thread tid
                      (fun t => mkPerThread
                                  (at_key String.eqb String.ltb name 0
                                     (fun n => ulong (n + times)) (events t))
                                  (avg t) (time t)) p))
  end.

(** Lines 95-103. *)
Definition average (tid : ThreadId) (name : string) (value : Double) (p : Profiler)
  : option Profiler :=
  match lock p with
  | None => None
  | Some p =>
      Some (unlock (on_thread tid
                      (fun t => mkPerThread (events t)
                                  (at_key String.eqb String.ltb name AvgInfo_new
                                     (fun a => mkAvgInfo
                                                 (dbl_add (avg_total a) value)
                                                 (dbl_add (avg_totalSqr a)
                                                    (dbl_mul value value))
                                                 (ulong (avg_parts a + 1)))
                                     (avg t))
                                  (time t)) p))
  end.

(** Lines 105-110. *)
Definition begin_ (now : PTime) (tid : ThreadId) (name : string) (p : Profiler)
  : option Profiler :=
  match lock p with
  | None => None
  | Some p =>
      Some (unlock (on_thread tid
                      (fun t => mkPerThread (events t) (avg t)
                                  (at_key String.eqb String.ltb name TimeInfo_new
                                     (TimeInfo_set now) (time t))) p))
  end.

(** Lines 112-117. *)
Definition end_ (now : PTime) (tid : ThreadId) (name : string) (p : Profiler)
  : option Profiler :=
  match lock p with
  | None => None
  | Some p =>
      Some (unlock (on_thread tid
                      (fun t => mkPerThread (events t) (avg t)
                                  (at_key String.eqb String.ltb name TimeInfo_new
                                     (TimeInfo_update now) (time t))) p))
  end.

(** Lines 141-142: one thread's events added into [combined]. *)
Definition combine_events (combined : PerThread) (evs : list (string * Z)) : PerThread :=
  fold_left
    (fun c e => mkPerThread
                  (at_key String.eqb String.ltb (fst e) 0
                     (fun n => ulong (n + snd e)) (events c))
                  (avg c) (time c))
    evs combined.

(** Lines 143-148. *)
Definition combine_avg (combined : PerThread) (avgs : list (string * AvgInfo Double))
  : PerThread :=
  fold_left
    (fun c e => mkPerThread (events c)
                  (at_key String.eqb String.ltb (fst e) AvgInfo_new
                     (fun a => mkAvgInfo
                                 (dbl_add (avg_total a) (avg_total (snd e)))
                                 (dbl_add (avg_totalSqr a) (avg_totalSqr (snd e)))
                                 (ulong (avg_parts a + avg_parts (snd e))))
                     (avg c))
                  (time c))
    avgs combined.

(** Lines 151-157: one timer merged into the combined timer of its name. *)
Definition combine_timer (itm tc : TimeInfo Duration PTime) : TimeInfo Duration PTime :=
  let tc := mkTimeInfo (dur_add (ti_total tc) (ti_total itm)) (ti_shortest tc)
              (ti_longest tc) (ti_parts tc) (ti_start tc) in
  let tc := mkTimeInfo (ti_total tc) (ti_shortest tc) (ti_longest tc)
              (ulong (ti_parts tc + ti_parts itm)) (ti_start tc) in
  let tc := if dur_ltb (ti_shortest itm) (ti_shortest tc)
            then mkTimeInfo (ti_total tc) (ti_shortest itm) (ti_longest tc)
                   (ti_parts tc) (ti_start tc)
            else tc in
  if dur_ltb (ti_longest tc) (ti_longest itm)
  then mkTimeInfo (ti_total tc) (ti_shortest tc) (ti_longest itm) (ti_parts tc)
         (ti_start tc)
  else tc.

(** Lines 149-158. *)
Definition combine_time (combined : PerThread)
    (times : list (string * TimeInfo Duration PTime)) : PerThread :=
  fold_left
    (fun c e => mkPerThread (events c) (avg c)
                  (at_key String.eqb String.ltb (fst e) TimeInfo_new
                     (combine_timer (snd e)) (time c)))
    times combined.

(** Lines 138-159: the statistics of all threads merged into one. *)
Definition combined (data : list (ThreadId * PerThread)) : PerThread :=
  fold_left
    (fun c it => combine_time
                   (combine_avg (combine_events c (events (snd it))) (avg (snd it)))
                   (time (snd it)))
    data PerThread_new.

(** What [status] hands to [printThreadInfo]: the total counted time and
    the blocks to print, each with the thread id of its "Thread ...:" heading
    when there is one.  The text [printThreadInfo] makes of a block (sorting,
    floating-point formatting) is not modelled. *)
Record Report : Type := mkReport {
  total_time : Duration;
  blocks : list (option ThreadId * PerThread)
}.

(** Lines 127-169. *)
Definition status (now : PTime) (merge : bool) (p : Profiler) : option (Profiler * Report) :=
  match stop now p with
  | None => None
  | Some p =>
      match lock p with
      | None => None
      | Some p =>
          let p := mkProfiler (lock_ p) (running_ p) (tinfo_ p) (data_ p) false in
          let report :=
            mkReport (ti_total (tinfo_ p))
              (if merge then [(None, combined (data_ p))]
               else map (fun it => (Some (fst it), snd it)) (data_ p)) in
          Some (unlock p, report)
      end
  end.

(** Lines 171-177. *)
Definition console (now : PTime) (p : Profiler) : option (Profiler * Report) :=
  status now true p.

(** ** Readings *)

(** The count of an event name on a thread, zero when there is none. *)
Definition event_count (p : Profiler) (tid : ThreadId) (name : string) : Z :=
  match find tid_eqb tid (data_ p) with
  | Some t => match find String.eqb name (events t) with Some n => n | None => 0 end
  | None => 0
  end.

Definition count_in (evs : list (string * Z)) (name : string) : Z :=
  match find String.eqb name evs with Some n => n | None => 0 end.

(** The sum of the values recorded under [name] in a list of entries. *)
Definition sum_of (name : string) (evs : list (string * Z)) : Z :=
  fold_right Z.add 0
    (map snd (List.filter (fun e => String.eqb (fst e) name) evs)).

(** Every map of the profiler has its keys in strictly increasing order. *)
Definition thread_ok (t : PerThread) : bool :=
  is_map String.ltb (events t) && is_map String.ltb (avg t) && is_map String.ltb (time t).

Definition wf (p : Profiler) : bool :=
  is_map tid_ltb (data_ p) && forallb (fun it => thread_ok (snd it)) (data_ p).

(** The sum of the counts of [name] over all threads. *)
Definition sum_over_threads (name : string) (data : list (ThreadId * PerThread)) : Z :=
  fold_right Z.add 0 (map (fun it => sum_of name (events (snd it))) data).
End Model.
End Profiler.

(** * More requests for the bench robot *)
Module Bench2.

(** One entry in the pose vector; the scalar pose (in an unknown frame) and
    the scalar link name are there to be ignored. *)
Definition req_one_vector : PositionIKRequest Bench.arm :=
  Bench.ik_request "arm" false [] "ignored" (Bench.at_frame "mars" 9) ["tip"]
    [Bench.at_frame "map" 4].

(** Two poses in known frames, two link names. *)
Definition req_two_poses : PositionIKRequest Bench.arm :=
  Bench.ik_request "arm" false [] "" (Bench.at_frame "base" 0) ["a"; "b"]
    [Bench.at_frame "map" 4; Bench.at_frame "base" 3].

(** The bench robot with a constraint set that drops the constraints it
    cannot configure: here, negative bounds. *)
Definition picky (base : Collaborators)
    (add : @KinematicConstraintSet base -> @ConstraintsMsg base -> @Transforms base
           -> @KinematicConstraintSet base) : Collaborators := {|
  Time := @Time base;
  Pose := @Pose base;
  Isometry3d := @Isometry3d base;
  RobotStateMsg := @RobotStateMsg base;
  ConstraintsMsg := @ConstraintsMsg base;
  RobotState := @RobotState base;
  JointModelGroup := @JointModelGroup base;
  JointValues := @JointValues base;
  PlanningScene := @PlanningScene base;
  Transforms := @Transforms base;
  KinematicConstraintSet := @KinematicConstraintSet base;
  isEmpty_robot_state := @isEmpty_robot_state base;
  isEmpty_constraints := @isEmpty_constraints base;
  robotStateMsgToRobotState := @robotStateMsgToRobotState base;
  robotStateToRobotStateMsg := @robotStateToRobotStateMsg base;
  toMsg := @toMsg base;
  fromMsg := @fromMsg base;
  getJointModelGroup := @getJointModelGroup base;
  getName := @getName base;
  getModelFrame := @getModelFrame base;
  setJointGroupPositions := @setJointGroupPositions base;
  update := @update base;
  hasLinkModel := @hasLinkModel base;
  getGlobalLinkTransform := @getGlobalLinkTransform base;
  setFromIK := @setFromIK base;
  setFromIK_tip := @setFromIK_tip base;
  setFromIK_poses := @setFromIK_poses base;
  isStateColliding := @isStateColliding base;
  getCurrentState := @getCurrentState base;
  getTransforms := @getTransforms base;
  kset_new := @kset_new base;
  kset_add := add;
  kset_empty := @kset_empty base;
  decide := @decide base;
  locked_scene := @locked_scene base;
  getTFClient := @getTFClient base;
  sameFrame := @sameFrame base;
  tf_transform := @tf_transform base;
  clock_now := @clock_now base
|}.

Definition picky_arm : Collaborators :=
  picky Bench.arm (fun k m _ => k ++ List.filter (fun c => (0 <=? c)%Z) m).

(** A request whose only constraint is a negative bound. *)
Definition req_unusable_constraint : PositionIKRequest picky_arm :=
  mkPositionIKRequest (C := picky_arm) "arm" [] [(-1)%Z] false ""
    (Bench.at_frame "base" 3) [] [] (mkDuration 1 0).

Definition picky_response : GetPositionIK_Response picky_arm :=
  mkIKResponse (C := picky_arm) [] UNDEFINED.

(** An FK response that already holds one entry. *)
Definition used_fk_response : GetPositionFK_Response Bench.arm :=
  mkFKResponse (C := Bench.arm) [Bench.at_frame "base" 1] ["old"] UNDEFINED.

(** Two links of the model, poses wanted in a known frame. *)
Definition fk_two_links : GetPositionFK_Request Bench.arm :=
  Bench.fk_request "map" ["gripper"; "elbow"].

(** No output frame. *)
Definition fk_model_frame : GetPositionFK_Request Bench.arm :=
  Bench.fk_request "" ["gripper"; "bogus_link"].

End Bench2.

(** * A profiler to run: thread ids are numbers, time is in ticks *)
Module ProfilerBench.
Import Profiler.
Local Open Scope Z_scope.

Lemma nat_order : KeyOrder Nat.eqb Nat.ltb.
Proof.
  constructor.
  - exact Nat.eqb_eq.
  - exact Nat.ltb_irrefl.
  - intros a b c H1 H2. apply Nat.ltb_lt in H1, H2. apply Nat.ltb_lt. lia.
  - intros a b E L. apply Nat.eqb_neq in E. apply Nat.ltb_ge in L. apply Nat.ltb_lt. lia.
Qed.

#[local] Instance params : ProfilerParams := {|
  ulong_bits := 64;
  ThreadId := nat;
  tid_eqb := Nat.eqb;
  tid_ltb := Nat.ltb;
  tid_order := nat_order;
  Double := Z;
  dbl_zero := 0;
  dbl_add := Z.add;
  dbl_mul := Z.mul;
  Duration := Z;
  dur_add := Z.add;
  dur_ltb := Z.ltb;
  PTime := Z;
  TimeInfo_new := mkTimeInfo 0 (2 ^ 62) (- 2 ^ 62) 0 0;
  TimeInfo_set := fun now ti =>
    mkTimeInfo (ti_total ti) (ti_shortest ti) (ti_longest ti) (ti_parts ti) now;
  TimeInfo_update := fun now ti =>
    let dt := now - ti_start ti in
    mkTimeInfo (ti_total ti + dt) (Z.min (ti_shortest ti) dt) (Z.max (ti_longest ti) dt)
      ((ti_parts ti + 1) mod 2 ^ 64) (ti_start ti)
|}.

(** A profiler that was never used. *)
Definition idle : Profiler := mkProfiler false false TimeInfo_new [] false.

(** A running profiler with counters of two threads. *)
Definition busy : Profiler :=
  mkProfiler false true (TimeInfo_set 100 TimeInfo_new)
    [(1%nat, mkPerThread [("fk"%string, 2); ("ik"%string, 5)] [] []);
     (2%nat, mkPerThread [("ik"%string, 7)] [] [])]
    false.

End ProfilerBench.

(** * Properties *)

(** ** Traces: framing and event filters *)

Lemma framed_ret {A : Type} (a : A) : framed (ret a).
Proof. intro tr. unfold ret. simpl. now rewrite app_nil_r. Qed.

Lemma framed_emit (e : Event) : framed (emit e).
Proof. intro tr. reflexivity. Qed.

Lemma framed_bind {A B : Type} (m : M A) (k : A -> M B) :
  framed m -> (forall a, framed (k a)) -> framed (bind m k).
Proof.
  intros Hm Hk tr. unfold bind.
  destruct (m []) as [a t0] eqn:E.
  rewrite (Hm tr), E. simpl.
  rewrite (Hk a (tr ++ t0)), (Hk a t0). simpl.
  now rewrite app_assoc.
Qed.

Lemma framed_run {A : Type} (m : M A) :
  framed m -> forall tr, m tr = (result m, tr ++ events m).
Proof. intros H tr. exact (H tr). Qed.

Lemma run_bind {A B : Type} (m : M A) (k : A -> M B) :
  framed m -> (forall a, framed (k a)) ->
  run (bind m k) = (result (k (result m)), events m ++ events (k (result m))).
Proof.
  intros Hm Hk. unfold run, result, events, run, bind.
  destruct (m []) as [a t0] eqn:E. simpl.
  now rewrite (Hk a t0).
Qed.

Lemma only_ret (P : Event -> bool) {A : Type} (a : A) : only P (ret a).
Proof. intro tr. exists []. simpl. now rewrite app_nil_r. Qed.

Lemma only_emit (P : Event -> bool) (e : Event) : P e = true -> only P (emit e).
Proof. intros H tr. exists [e]. simpl. now rewrite H. Qed.

Lemma only_bind (P : Event -> bool) {A B : Type} (m : M A) (k : A -> M B) :
  only P m -> (forall a, only P (k a)) -> only P (bind m k).
Proof.
  intros Hm Hk tr. unfold bind.
  destruct (Hm tr) as [e1 [E1 F1]].
  destruct (m tr) as [a t1]. simpl in E1. subst t1.
  destruct (Hk a (tr ++ e1)) as [e2 [E2 F2]].
  exists (e1 ++ e2). rewrite E2, app_assoc, forallb_app, F1, F2. auto.
Qed.

Lemma only_events (P : Event -> bool) {A : Type} (m : M A) :
  only P m -> forallb P (events m) = true.
Proof.
  intro H. destruct (H []) as [evs [E F]]. unfold events, run. now rewrite E.
Qed.

Ltac framed_step :=
  first
    [ apply framed_ret
    | apply framed_emit
    | apply framed_bind; [ | intros ]
    | match goal with
      | |- framed (match ?x with _ => _ end) => destruct x
      end ].

Ltac only_step :=
  first
    [ apply only_ret
    | apply only_emit; reflexivity
    | apply only_bind; [ | intros ]
    | match goal with
      | |- only _ (match ?x with _ => _ end) => destruct x
      end ].

Lemma solver_depths_split (d : nat) (pre post : list Event) (e : Event) :
  is_solver_event e = true ->
  In (lock_depth_from d pre) (solver_depths d (pre ++ e :: post)).
Proof.
  intro He. revert d.
  induction pre as [|x pre IH]; intro d; simpl.
  - destruct e; try discriminate. now left.
  - destruct x; simpl; try apply IH. right. apply IH.
Qed.

Lemma solver_depths_app (d : nat) (a b : list Event) :
  solver_depths d (a ++ b) = solver_depths d a ++ solver_depths (lock_depth_from d a) b.
Proof.
  revert d. induction a as [|x a IH]; intro d; simpl; [reflexivity|].
  destruct x; simpl; rewrite ?IH; reflexivity.
Qed.

Lemma lock_free_depth (d : nat) (tr : list Event) :
  forallb (fun e => negb (is_lock_event e)) tr = true ->
  lock_depth_from d tr = d /\ Forall (fun n => n = d) (solver_depths d tr).
Proof.
  induction tr as [|x tr IH]; simpl; intro H; [split; [reflexivity|constructor]|].
  apply andb_true_iff in H. destruct H as [Hx Ht]. destruct (IH Ht) as [I1 I2].
  destruct x; simpl in *; try discriminate; auto.
Qed.

Section CapabilityProperties.
Context {C : Collaborators}.

Lemma framed_performTransform (p : PoseStamped Time Pose) (f : string) :
  framed (performTransform p f).
Proof. unfold performTransform. repeat framed_step. Qed.

Lemma framed_after_solve (o : IKOut) (r : bool * RobotState) : framed (after_solve o r).
Proof. unfold after_solve. destruct r as [[] rs]; repeat framed_step. Qed.

Lemma framed_transform_poses (msgs : list (PoseStamped Time Pose)) (df : string) :
  forall acc ec, framed (transform_poses msgs df acc ec).
Proof.
  induction msgs as [|msg rest IH]; intros acc ec; simpl.
  - apply framed_ret.
  - apply framed_bind; [apply framed_performTransform|].
    intros [msg'|]; [apply IH | apply framed_ret].
Qed.

Lemma framed_computeIK (req : PositionIKRequest C) (o : IKOut)
    (cb : GroupStateValidityCallbackFn) : framed (computeIK req o cb).
Proof.
  unfold computeIK, merge_request_state, computeIK_single, computeIK_multi.
  repeat first
    [ apply framed_performTransform
    | apply framed_after_solve
    | apply framed_transform_poses
    | framed_step ].
Qed.

Lemma only_performTransform (P : Event -> bool) (p : PoseStamped Time Pose) (f : string) :
  (forall a b, P (EvPerformTransform a b) = true) -> only P (performTransform p f).
Proof.
  intro H. unfold performTransform.
  apply only_bind; [apply only_emit, H | intros; apply only_ret].
Qed.

Lemma only_after_solve (P : Event -> bool) (o : IKOut) (r : bool * RobotState) :
  P EvRobotStateToRobotStateMsg = true -> only P (after_solve o r).
Proof.
  intro H. unfold after_solve. destruct r as [[] rs].
  - apply only_bind; [apply only_emit, H | intros; apply only_ret].
  - apply only_ret.
Qed.

Lemma only_transform_poses (P : Event -> bool) (msgs : list (PoseStamped Time Pose))
    (df : string) :
  (forall a b, P (EvPerformTransform a b) = true) ->
  forall acc ec, only P (transform_poses msgs df acc ec).
Proof.
  intro H. induction msgs as [|msg rest IH]; intros acc ec; simpl.
  - apply only_ret.
  - apply only_bind; [now apply only_performTransform|].
    intros [msg'|]; [apply IH | apply only_ret].
Qed.

(** [computeIK] itself never touches the planning scene lock. *)
Lemma computeIK_lock_free (req : PositionIKRequest C) (o : IKOut)
    (cb : GroupStateValidityCallbackFn) : only not_lock (computeIK req o cb).
Proof.
  unfold computeIK, merge_request_state, computeIK_single, computeIK_multi.
  repeat first
    [ apply only_performTransform; reflexivity
    | apply only_after_solve; reflexivity
    | apply only_transform_poses; reflexivity
    | only_step ].
Qed.

(** ** The validity predicate *)

(** C3: the validity predicate applies the candidate values, updates the
    transforms, then checks collisions (only with a scene) and then the
    constraints (only with a constraint set, and only when the collision
    check passed); its verdict is the conjunction of the two tests, so it
    is false at the first failing test and true when neither ingredient is
    present. *)
Theorem isIKSolutionValid_order
    (planning_scene : option PlanningScene)
    (constraint_set : option KinematicConstraintSet)
    (state : RobotState) (jmg : JointModelGroup) (ik_solution : JointValues) :
  let st := candidate_state state jmg ik_solution in
  run (isIKSolutionValid planning_scene constraint_set state jmg ik_solution) =
    ((collision_free planning_scene st jmg && constraints_satisfied constraint_set st, st),
     [EvSetJointGroupPositions; EvUpdate]
       ++ match planning_scene with
          | Some _ => [EvIsStateColliding (getName jmg)]
          | None => []
          end
       ++ match constraint_set with
          | Some _ => if collision_free planning_scene st jmg then [EvDecide] else []
          | None => []
          end)
  /\ (collision_free planning_scene st jmg = false ->
      result (isIKSolutionValid planning_scene constraint_set state jmg ik_solution)
        = (false, st))
  /\ result (isIKSolutionValid None None state jmg ik_solution) = (true, st).
Proof.
  intro st. subst st. unfold candidate_state.
  split; [|split].
  - destruct planning_scene as [ps|], constraint_set as [cs|];
      unfold run, isIKSolutionValid, bind, emit, ret, collision_free; simpl;
      try destruct (isStateColliding ps _ _); reflexivity.
  - intro H.
    destruct planning_scene as [ps|]; [|discriminate].
    unfold collision_free in H.
    unfold result, run, isIKSolutionValid, bind, emit, ret; simpl.
    destruct (isStateColliding ps _ _); [reflexivity|discriminate].
  - reflexivity.
Qed.

(** ** The IK service around [computeIK] *)

(** The service is [computeIK] wrapped in one of two lock scopes. *)
Lemma computeIKService_run (req : PositionIKRequest C) (res : GetPositionIK_Response C) :
  run (computeIKService req res) =
    ((true, mkIKResponse (out_solution (result (ik_body req res)))
              (out_error_code (result (ik_body req res)))),
     if keeps_lock req then locked_prefix ++ events (ik_body req res) ++ [EvUnlockRO]
     else snapshot_prefix ++ events (ik_body req res)).
Proof.
  unfold run, computeIKService, ik_body, ik_callback, ik_kset, ik_out0, keeps_lock,
    result, events, run.
  destruct (avoid_collisions req || negb (isEmpty_constraints (constraints req)));
    unfold bind, emit, ret; simpl;
    match goal with
    | |- context [computeIK ?r ?o ?cb (?e1 :: ?rest)] =>
        rewrite (framed_computeIK r o cb (e1 :: rest));
        destruct (computeIK r o cb []) as [o' evs]
    end; simpl; rewrite <- ?app_assoc; reflexivity.
Qed.

(** C2: the read lock spans the whole of [computeIK], and with it every
    solver call, exactly when the request asks for collision avoidance or
    carries constraints; otherwise it is taken, the current state is copied,
    and it is released before [computeIK] starts. *)
Theorem computeIKService_lock_scope
    (req : PositionIKRequest C) (res : GetPositionIK_Response C) :
  let tr := events (computeIKService req res) in
  let body := events (ik_body req res) in
  forallb not_lock body = true
  /\ tr = (if keeps_lock req
           then [EvUpdateFrameTransforms; EvLockRO; EvGetCurrentState; EvKsetAdd]
                  ++ body ++ [EvUnlockRO]
           else [EvUpdateFrameTransforms; EvLockRO; EvGetCurrentState; EvUnlockRO]
                  ++ body)
  /\ (forall pre e post,
        tr = pre ++ e :: post -> is_solver_event e = true ->
        (lock_depth pre = 1 <-> keeps_lock req = true)
        /\ (lock_depth pre = 0 <-> keeps_lock req = false)).
Proof.
  intros tr body.
  assert (Hbody : forallb not_lock body = true)
    by (apply only_events, computeIK_lock_free).
  assert (Htr : tr = if keeps_lock req
                     then locked_prefix ++ body ++ [EvUnlockRO]
                     else snapshot_prefix ++ body)
    by (unfold tr, events; now rewrite computeIKService_run).
  split; [exact Hbody|]. split; [exact Htr|].
  intros pre e post Hsplit He.
  assert (Hin : In (lock_depth pre) (solver_depths 0 tr))
    by (rewrite Hsplit; now apply solver_depths_split).
  assert (Hd : lock_depth pre = if keeps_lock req then 1 else 0).
  { rewrite Htr in Hin.
    destruct (keeps_lock req).
    - rewrite solver_depths_app in Hin. simpl in Hin.
      rewrite solver_depths_app in Hin.
      destruct (lock_free_depth 1 body Hbody) as [D1 D2].
      rewrite D1 in Hin. simpl in Hin. rewrite app_nil_r in Hin.
      rewrite Forall_forall in D2. now apply D2.
    - rewrite solver_depths_app in Hin. simpl in Hin.
      destruct (lock_free_depth 0 body Hbody) as [D1 D2].
      rewrite Forall_forall in D2. now apply D2. }
  rewrite Hd. destruct (keeps_lock req); split; split; intro; congruence.
Qed.

(** ** The pose loop of the multi-pose branch *)

Lemma transform_poses_run (msgs : list (PoseStamped Time Pose)) (df : string) :
  forall acc ec, exists acc',
    run (transform_poses msgs df acc ec) =
      ((forallb (transforms_ok df) msgs, acc',
        if forallb (transforms_ok df) msgs then ec else FRAME_TRANSFORM_FAILURE),
       map (transform_event df) (attempted df msgs)).
Proof.
  induction msgs as [|q rest IH]; intros acc ec.
  - exists acc. reflexivity.
  - unfold run. simpl. unfold bind at 1. unfold performTransform, bind, emit, ret.
    simpl.
    assert (Hq : transforms_ok df q =
                 match tf_transform q df with Some _ => true | None => false end)
      by reflexivity.
    destruct (tf_transform q df) as [q'|] eqn:E; rewrite Hq.
    + destruct (IH (acc ++ [fromMsg (pose q')]) ec) as [acc' IH'].
      exists acc'. unfold run in IH'.
      rewrite (framed_transform_poses rest df _ _ [_]), IH'. reflexivity.
    + exists acc. reflexivity.
Qed.

Lemma attempted_first_failure (df : string)
    (pre post : list (PoseStamped Time Pose)) (p : PoseStamped Time Pose) :
  forallb (transforms_ok df) pre = true -> transforms_ok df p = false ->
  attempted df (pre ++ p :: post) = pre ++ [p]
  /\ forallb (transforms_ok df) (pre ++ p :: post) = false.
Proof.
  intros Hpre Hp. induction pre as [|q pre IH]; simpl in *.
  - now rewrite Hp.
  - apply andb_true_iff in Hpre. destruct Hpre as [Hq Hpre].
    rewrite Hq. destruct (IH Hpre) as [I1 I2]. now rewrite I1, I2.
Qed.

(** ** Summaries of the pieces of [computeIK] *)

Lemma merge_request_state_run (req : PositionIKRequest C) (o : IKOut) :
  run (merge_request_state req o) = (merged req o, merge_events req).
Proof.
  unfold run, merge_request_state, merged, merge_events.
  destruct (negb (isEmpty_robot_state (robot_state req))); reflexivity.
Qed.

Lemma after_solve_run (o : IKOut) (r : bool * RobotState) :
  run (after_solve o r) = (solved o r, solved_events r).
Proof. destruct r as [[] rs]; reflexivity. Qed.

Lemma computeIK_single_run (req : PositionIKRequest C) (o : IKOut)
    (jmg : JointModelGroup) (cb : GroupStateValidityCallbackFn) (df : string) :
  run (computeIK_single req o jmg cb df) =
    match tf_transform (single_pose req) df with
    | Some p =>
        (solved o (single_solve req o jmg cb p),
         [transform_event df (single_pose req); EvSetFromIK (single_call req)]
           ++ solved_events (single_solve req o jmg cb p))
    | None =>
        (set_error_code o FRAME_TRANSFORM_FAILURE, [transform_event df (single_pose req)])
    end.
Proof.
  unfold run, computeIK_single, performTransform, bind, emit, ret,
    single_solve, single_call. simpl.
  destruct (tf_transform (single_pose req) df) as [p|]; [|reflexivity].
  destruct (String.eqb (single_ik_link req) "");
    rewrite (framed_run _ (framed_after_solve _ _)); unfold result, events;
    rewrite after_solve_run; reflexivity.
Qed.

Lemma computeIK_multi_run (req : PositionIKRequest C) (o : IKOut)
    (jmg : JointModelGroup) (cb : GroupStateValidityCallbackFn) (df : string) :
  exists req_poses,
    run (computeIK_multi req o jmg cb df) =
      if negb (List.length (pose_stamped_vector req) =? List.length (ik_link_names req))%nat
      then (set_error_code o INVALID_LINK_NAME, [])
      else if forallb (transforms_ok df) (pose_stamped_vector req)
      then
        let r := setFromIK_poses (out_rs o) jmg req_poses (ik_link_names req)
                   (sec (timeout req)) cb in
        (solved o r,
         map (transform_event df) (attempted df (pose_stamped_vector req))
           ++ [EvSetFromIK (IKPoses (ik_link_names req))] ++ solved_events r)
      else
        (set_error_code o FRAME_TRANSFORM_FAILURE,
         map (transform_event df) (attempted df (pose_stamped_vector req))).
Proof.
  destruct (transform_poses_run (pose_stamped_vector req) df [] (out_error_code o))
    as [acc' E].
  exists acc'. unfold computeIK_multi.
  destruct (negb (_ =? _)%nat); [reflexivity|].
  unfold run, bind in *. rewrite E.
  destruct (forallb (transforms_ok df) (pose_stamped_vector req)).
  - unfold emit. simpl.
    rewrite (framed_run _ (framed_after_solve _ _)). unfold result, events.
    rewrite after_solve_run. simpl.
    destruct o as [sol ec rs]. simpl. rewrite <- app_assoc. reflexivity.
  - simpl. destruct o; reflexivity.
Qed.

Lemma framed_computeIK_single (req : PositionIKRequest C) (o : IKOut)
    (jmg : JointModelGroup) (cb : GroupStateValidityCallbackFn) (df : string) :
  framed (computeIK_single req o jmg cb df).
Proof.
  unfold computeIK_single.
  repeat first
    [ apply framed_performTransform | apply framed_after_solve | framed_step ].
Qed.

Lemma framed_computeIK_multi (req : PositionIKRequest C) (o : IKOut)
    (jmg : JointModelGroup) (cb : GroupStateValidityCallbackFn) (df : string) :
  framed (computeIK_multi req o jmg cb df).
Proof.
  unfold computeIK_multi.
  repeat first
    [ apply framed_transform_poses | apply framed_after_solve | framed_step ].
Qed.

Lemma framed_merge_request_state (req : PositionIKRequest C) (o : IKOut) :
  framed (merge_request_state req o).
Proof. unfold merge_request_state. repeat framed_step. Qed.

Lemma computeIK_run (req : PositionIKRequest C) (o : IKOut)
    (cb : GroupStateValidityCallbackFn) :
  run (computeIK req o cb) =
    match getJointModelGroup (out_rs o) (group_name req) with
    | None => (set_error_code o INVALID_GROUP_NAME, [EvGetJointModelGroup (group_name req)])
    | Some jmg =>
        (result (ik_branch req o jmg cb),
         EvGetJointModelGroup (group_name req)
           :: merge_events req ++ events (ik_branch req o jmg cb))
    end.
Proof.
  unfold computeIK, run, bind, emit. simpl.
  destruct (getJointModelGroup (out_rs o) (group_name req)) as [jmg|]; [|reflexivity].
  rewrite (framed_run _ (framed_merge_request_state req o)).
  assert (R : result (merge_request_state req o) = merged req o)
    by (unfold result; now rewrite merge_request_state_run).
  assert (Ev : events (merge_request_state req o) = merge_events req)
    by (unfold events; now rewrite merge_request_state_run).
  rewrite ?R, ?Ev. simpl.
  assert (E : match pose_stamped_vector req with
              | [] | [_] => computeIK_single req (merged req o) jmg cb getModelFrame
              | _ => computeIK_multi req (merged req o) jmg cb getModelFrame
              end = ik_branch req o jmg cb).
  { unfold ik_branch, multi_pose.
    destruct (pose_stamped_vector req) as [|p [|p' l]]; reflexivity. }
  rewrite E.
  assert (F : framed (ik_branch req o jmg cb)).
  { unfold ik_branch. destruct (multi_pose req);
      [apply framed_computeIK_multi | apply framed_computeIK_single]. }
  rewrite (framed_run _ F). reflexivity.
Qed.

(** ** The service in terms of [computeIK] *)

Lemma computeIKService_result (req : PositionIKRequest C) (res : GetPositionIK_Response C) :
  result (computeIKService req res) =
    (true, mkIKResponse (out_solution (result (ik_body req res)))
             (out_error_code (result (ik_body req res)))).
Proof. unfold result at 1. now rewrite computeIKService_run. Qed.

Lemma computeIKService_events (req : PositionIKRequest C) (res : GetPositionIK_Response C) :
  events (computeIKService req res) =
    if keeps_lock req then locked_prefix ++ events (ik_body req res) ++ [EvUnlockRO]
    else snapshot_prefix ++ events (ik_body req res).
Proof. unfold events at 1. now rewrite computeIKService_run. Qed.

Lemma computeIKService_filter (P : Event -> bool)
    (req : PositionIKRequest C) (res : GetPositionIK_Response C) :
  body_only P ->
  filter P (events (computeIKService req res)) = filter P (events (ik_body req res)).
Proof.
  intros (H1 & H2 & H3 & H4 & H5). rewrite computeIKService_events.
  destruct (keeps_lock req); unfold locked_prefix, snapshot_prefix;
    rewrite ?filter_app; simpl; rewrite H1, H2, H3, ?H4, ?H5; simpl;
    rewrite ?app_nil_r; reflexivity.
Qed.

Lemma existsb_filter (P : Event -> bool) (l : list Event) :
  existsb P l = negb (match filter P l with [] => true | _ => false end).
Proof.
  induction l as [|x l IH]; simpl; [reflexivity|].
  destruct (P x); simpl; [reflexivity|exact IH].
Qed.

Lemma computeIKService_existsb (P : Event -> bool)
    (req : PositionIKRequest C) (res : GetPositionIK_Response C) :
  body_only P ->
  existsb P (events (computeIKService req res)) = existsb P (events (ik_body req res)).
Proof. intro H. now rewrite !existsb_filter, computeIKService_filter. Qed.

Lemma body_only_solver : body_only is_solver_event.
Proof. repeat split. Qed.

Lemma body_only_transform : body_only is_transform_event.
Proof. repeat split. Qed.

Lemma body_only_solution_write : body_only is_solution_write.
Proof. repeat split. Qed.

Lemma filter_transform_events (P : Event -> bool) (df : string)
    (l : list (PoseStamped Time Pose)) :
  (forall a b, P (EvPerformTransform a b) = true) ->
  filter P (map (transform_event df) l) = map (transform_event df) l.
Proof.
  intro H. induction l as [|q l IH]; simpl; [reflexivity|].
  unfold transform_event at 1. now rewrite H, IH.
Qed.

Lemma filter_merge_events (P : Event -> bool) (req : PositionIKRequest C) :
  P EvRobotStateMsgToRobotState = false -> filter P (merge_events req) = [].
Proof.
  intro H. unfold merge_events.
  destruct (negb _); simpl; [now rewrite H | reflexivity].
Qed.

Lemma merged_solution (req : PositionIKRequest C) (o : IKOut) :
  out_solution (merged req o) = out_solution o.
Proof. unfold merged. destruct (negb _); reflexivity. Qed.

(** ** Unknown group *)

(** C1, as the code has it: a request whose group does not resolve gets
    [INVALID_GROUP_NAME] with the solution left alone, no solver call and no
    pose transform; the read lock is taken once, to copy the current state the
    group is looked up in, and released before the lookup unless collision
    avoidance or constraints were requested. *)
Theorem computeIKService_unknown_group
    (req : PositionIKRequest C) (res : GetPositionIK_Response C) :
  getJointModelGroup (getCurrentState locked_scene) (group_name req) = None ->
  run (computeIKService req res) =
    ((true, mkIKResponse (solution res) INVALID_GROUP_NAME),
     if keeps_lock req
     then [EvUpdateFrameTransforms; EvLockRO; EvGetCurrentState; EvKsetAdd;
           EvGetJointModelGroup (group_name req); EvUnlockRO]
     else [EvUpdateFrameTransforms; EvLockRO; EvGetCurrentState; EvUnlockRO;
           EvGetJointModelGroup (group_name req)])
  /\ existsb is_solver_event (events (computeIKService req res)) = false
  /\ existsb is_transform_event (events (computeIKService req res)) = false.
Proof.
  intro H.
  assert (E : run (ik_body req res) =
              (set_error_code (ik_out0 res) INVALID_GROUP_NAME,
               [EvGetJointModelGroup (group_name req)])).
  { unfold ik_body. rewrite computeIK_run. unfold ik_out0 at 1. simpl. now rewrite H. }
  assert (R : run (computeIKService req res) =
    ((true, mkIKResponse (solution res) INVALID_GROUP_NAME),
     if keeps_lock req
     then [EvUpdateFrameTransforms; EvLockRO; EvGetCurrentState; EvKsetAdd;
           EvGetJointModelGroup (group_name req); EvUnlockRO]
     else [EvUpdateFrameTransforms; EvLockRO; EvGetCurrentState; EvUnlockRO;
           EvGetJointModelGroup (group_name req)])).
  { rewrite computeIKService_run. unfold result, events. rewrite E. simpl.
    destruct (keeps_lock req); reflexivity. }
  split; [exact R|].
  unfold events. rewrite R. simpl. destruct (keeps_lock req); split; reflexivity.
Qed.

(** ** Outcomes of [computeIK] *)

Lemma existsb_merge_events (P : Event -> bool) (req : PositionIKRequest C) :
  P EvRobotStateMsgToRobotState = false -> existsb P (merge_events req) = false.
Proof.
  intro H. unfold merge_events. destruct (negb _); simpl; [now rewrite H|reflexivity].
Qed.

Lemma existsb_transform_events (P : Event -> bool) (df : string)
    (l : list (PoseStamped Time Pose)) :
  (forall a b, P (EvPerformTransform a b) = false) ->
  existsb P (map (transform_event df) l) = false.
Proof.
  intro H. induction l as [|q l IH]; simpl; [reflexivity|].
  unfold transform_event at 1. now rewrite H, IH.
Qed.

Lemma solved_outcome (o : IKOut) (r : bool * RobotState) :
  match out_error_code (solved o r) with
  | SUCCESS =>
      exists rs', r = (true, rs')
        /\ out_solution (solved o r) = robotStateToRobotStateMsg rs' (out_solution o) false
  | _ => out_solution (solved o r) = out_solution o /\ solved_events r = []
  end.
Proof.
  destruct r as [[] rs]; unfold solved, solved_events; simpl.
  - exists rs. split; reflexivity.
  - split; reflexivity.
Qed.

(** On success the solution is the converted state some solver call
    returned; on every other outcome the solution is left as it was and
    never written. *)
Lemma computeIK_outcome (req : PositionIKRequest C) (o : IKOut)
    (cb : GroupStateValidityCallbackFn) :
  match out_error_code (result (computeIK req o cb)) with
  | SUCCESS =>
      exists jmg rs',
        getJointModelGroup (out_rs o) (group_name req) = Some jmg
        /\ solver_returned req o jmg cb rs'
        /\ out_solution (result (computeIK req o cb))
           = robotStateToRobotStateMsg rs' (out_solution o) false
  | _ =>
      out_solution (result (computeIK req o cb)) = out_solution o
      /\ existsb is_solution_write (events (computeIK req o cb)) = false
  end.
Proof.
  unfold result, events. rewrite computeIK_run.
  destruct (getJointModelGroup (out_rs o) (group_name req)) as [jmg|] eqn:G;
    [|simpl; split; reflexivity].
  unfold ik_branch, solver_returned. simpl.
  destruct (multi_pose req).
  - destruct (computeIK_multi_run req (merged req o) jmg cb getModelFrame) as [rp E].
    unfold result, events. rewrite E. clear E.
    destruct (negb (_ =? _)%nat).
    { simpl. rewrite merged_solution, app_nil_r.
      split; [reflexivity|]. now apply existsb_merge_events. }
    destruct (forallb _ _).
    + cbv zeta. simpl fst. simpl snd.
      pose proof (solved_outcome (merged req o)
        (setFromIK_poses (out_rs (merged req o)) jmg rp (ik_link_names req)
           (sec (timeout req)) cb)) as S.
      destruct (out_error_code (solved _ _)).
      2:{ destruct S as [rs' [S1 S2]]. exists jmg, rs'.
          split; [reflexivity|]. split; [right; now exists rp|].
          now rewrite S2, merged_solution. }
      all: destruct S as [S1 S2]; rewrite S1, S2, merged_solution;
        split; [reflexivity|];
        rewrite !existsb_app, existsb_merge_events, existsb_transform_events
          by reflexivity; reflexivity.
    + simpl. rewrite merged_solution. split; [reflexivity|].
      rewrite !existsb_app, existsb_merge_events, existsb_transform_events
        by reflexivity; reflexivity.
  - unfold result, events. rewrite computeIK_single_run.
    destruct (tf_transform (single_pose req) getModelFrame) as [p|].
    + simpl fst. simpl snd.
      pose proof (solved_outcome (merged req o)
                    (single_solve req (merged req o) jmg cb p)) as S.
      destruct (out_error_code (solved _ _)).
      2:{ destruct S as [rs' [S1 S2]]. exists jmg, rs'.
          split; [reflexivity|]. split; [left; now exists p|].
          now rewrite S2, merged_solution. }
      all: destruct S as [S1 S2]; rewrite S1, S2, merged_solution;
        split; [reflexivity|];
        rewrite !existsb_app, existsb_merge_events by reflexivity; reflexivity.
    + simpl. rewrite merged_solution. split; [reflexivity|].
      rewrite !existsb_app, existsb_merge_events by reflexivity; reflexivity.
Qed.

(** C9: whenever the IK service reports anything but [SUCCESS], the
    response's solution is the one it was handed: no conversion of a robot
    state into the solution message took place. *)
Theorem computeIKService_failure_keeps_solution
    (req : PositionIKRequest C) (res : GetPositionIK_Response C) :
  error_code (snd (result (computeIKService req res))) <> SUCCESS ->
  solution (snd (result (computeIKService req res))) = solution res
  /\ existsb is_solution_write (events (computeIKService req res)) = false.
Proof.
  rewrite computeIKService_result,
    (computeIKService_existsb _ req res body_only_solution_write).
  simpl. intro H.
  pose proof (computeIK_outcome req (ik_out0 res) (ik_callback req)) as O.
  fold (ik_body req res) in O.
  destruct (out_error_code (result (ik_body req res))); try exact O.
  now elim H.
Qed.

(** ** Pose and link-name counts *)

(** C5, as the code has it: a request with more than one pose and a
    different number of link names never reaches the solver or a pose
    transform and leaves the solution alone; it is answered
    [INVALID_LINK_NAME] when its group resolves, and [INVALID_GROUP_NAME]
    when it does not, since the group is looked up first. *)
Theorem computeIKService_count_mismatch
    (req : PositionIKRequest C) (res : GetPositionIK_Response C) :
  multi_pose req = true ->
  List.length (pose_stamped_vector req) <> List.length (ik_link_names req) ->
  error_code (snd (result (computeIKService req res))) =
    match getJointModelGroup (getCurrentState locked_scene) (group_name req) with
    | Some _ => INVALID_LINK_NAME
    | None => INVALID_GROUP_NAME
    end
  /\ solution (snd (result (computeIKService req res))) = solution res
  /\ existsb is_solver_event (events (computeIKService req res)) = false
  /\ existsb is_transform_event (events (computeIKService req res)) = false.
Proof.
  intros Hm Hn.
  rewrite computeIKService_result,
    (computeIKService_existsb _ req res body_only_solver),
    (computeIKService_existsb _ req res body_only_transform).
  simpl. unfold ik_body, result, events. rewrite computeIK_run.
  change (out_rs (ik_out0 res)) with (getCurrentState locked_scene).
  destruct (getJointModelGroup (getCurrentState locked_scene) (group_name req))
    as [jmg|]; [|repeat split].
  unfold ik_branch. rewrite Hm.
  destruct (computeIK_multi_run req (merged req (ik_out0 res)) jmg (ik_callback req)
              getModelFrame) as [rp E].
  unfold result, events. rewrite E. clear E.
  apply Nat.eqb_neq in Hn. rewrite Hn. simpl.
  rewrite merged_solution, app_nil_r, !existsb_merge_events by reflexivity.
  repeat split.
Qed.

(** ** Pose transforms *)

(** C4, as the code has it: for a request whose group resolves and, when it
    has more than one pose, as many link names as poses, a pose that does not
    transform into the model frame gives [FRAME_TRANSFORM_FAILURE]; the
    solver is not called, and the transforms attempted are exactly those of
    the poses up to and including the first failing one. *)
Theorem computeIKService_transform_failure
    (req : PositionIKRequest C) (res : GetPositionIK_Response C)
    (jmg : JointModelGroup)
    (pre post : list (PoseStamped Time Pose)) (p : PoseStamped Time Pose) :
  getJointModelGroup (getCurrentState locked_scene) (group_name req) = Some jmg ->
  (multi_pose req = true ->
   List.length (pose_stamped_vector req) = List.length (ik_link_names req)) ->
  ik_poses req = pre ++ p :: post ->
  forallb (transforms_ok getModelFrame) pre = true ->
  transforms_ok getModelFrame p = false ->
  result (computeIKService req res) =
    (true, mkIKResponse (solution res) FRAME_TRANSFORM_FAILURE)
  /\ existsb is_solver_event (events (computeIKService req res)) = false
  /\ filter is_transform_event (events (computeIKService req res)) =
       map (transform_event getModelFrame) (pre ++ [p]).
Proof.
  intros G Hn Hsplit Hpre Hp.
  rewrite computeIKService_result,
    (computeIKService_existsb _ req res body_only_solver),
    (computeIKService_filter _ req res body_only_transform).
  unfold ik_body, result, events. rewrite computeIK_run.
  change (out_rs (ik_out0 res)) with (getCurrentState locked_scene). rewrite G.
  unfold ik_branch, ik_poses in *. simpl.
  destruct (multi_pose req).
  - destruct (computeIK_multi_run req (merged req (ik_out0 res)) jmg (ik_callback req)
                getModelFrame) as [rp E].
    unfold result, events. rewrite E. clear E.
    rewrite (Hn eq_refl), Nat.eqb_refl. simpl negb. cbv iota.
    destruct (attempted_first_failure getModelFrame pre post p Hpre Hp) as [A1 A2].
    rewrite Hsplit, A1, A2. simpl fst. simpl snd. simpl out_solution.
    simpl out_error_code.
    rewrite merged_solution, existsb_app, existsb_merge_events,
      existsb_transform_events, filter_app, filter_merge_events,
      filter_transform_events by reflexivity.
    repeat split.
  - destruct pre as [|q pre]; simpl in Hsplit.
    2:{ injection Hsplit as _ Hnil. now apply app_cons_not_nil in Hnil. }
    injection Hsplit as Hsingle _.
    unfold result, events. rewrite computeIK_single_run.
    unfold transforms_ok in Hp. rewrite Hsingle.
    destruct (tf_transform p getModelFrame); [discriminate|].
    simpl. rewrite merged_solution, existsb_app, existsb_merge_events,
      filter_app, filter_merge_events by reflexivity.
    repeat split.
Qed.

(** ** Collision avoidance *)

Lemma bind_isIKSolutionValid_eq
    (planning_scene : option PlanningScene)
    (constraint_set : option KinematicConstraintSet)
    (state : RobotState) (jmg : JointModelGroup) (ik_solution : JointValues) :
  bind_isIKSolutionValid planning_scene constraint_set state jmg ik_solution =
    (collision_free planning_scene (candidate_state state jmg ik_solution) jmg
       && constraints_satisfied constraint_set (candidate_state state jmg ik_solution),
     candidate_state state jmg ik_solution).
Proof.
  unfold bind_isIKSolutionValid, result, run, isIKSolutionValid, bind, emit, ret,
    collision_free, constraints_satisfied, candidate_state.
  destruct planning_scene as [ps|], constraint_set as [cs|]; simpl;
    try destruct (isStateColliding ps _ _); reflexivity.
Qed.

(** C8: with collision avoidance requested, the callback the service hands
    to the solver rejects every candidate whose configuration the scene
    reports as colliding; so, for a solver that only returns states its
    callback accepted, the state behind a [SUCCESS] response is not in
    collision. *)
Theorem computeIKService_avoids_collisions
    (req : PositionIKRequest C) (res : GetPositionIK_Response C) :
  avoid_collisions req = true ->
  solver_respects_callback ->
  (exists cb,
      ik_callback req = Some cb
      /\ forall st jmg sol,
           isStateColliding locked_scene (candidate_state st jmg sol) (getName jmg) = true ->
           fst (cb st jmg sol) = false)
  /\ (error_code (snd (result (computeIKService req res))) = SUCCESS ->
      exists jmg rs',
        getJointModelGroup (getCurrentState locked_scene) (group_name req) = Some jmg
        /\ solution (snd (result (computeIKService req res)))
           = robotStateToRobotStateMsg rs' (solution res) false
        /\ isStateColliding locked_scene rs' (getName jmg) = false).
Proof.
  intros Ha (S1 & S2 & S3).
  assert (Hcb : ik_callback req =
                Some (bind_isIKSolutionValid (Some locked_scene)
                        (if kset_empty (ik_kset req) then None else Some (ik_kset req)))).
  { unfold ik_callback, keeps_lock. now rewrite Ha. }
  split.
  - eexists. split; [exact Hcb|].
    intros st jmg sol Hc. rewrite bind_isIKSolutionValid_eq. simpl.
    unfold collision_free. now rewrite Hc.
  - rewrite computeIKService_result. simpl. intro Hs.
    pose proof (computeIK_outcome req (ik_out0 res) (ik_callback req)) as O.
    fold (ik_body req res) in O. rewrite Hs in O.
    destruct O as (jmg & rs' & G & R & Sol).
    exists jmg, rs'. split; [exact G|]. split; [exact Sol|].
    assert (Hacc : exists st sol,
               bind_isIKSolutionValid (Some locked_scene)
                 (if kset_empty (ik_kset req) then None else Some (ik_kset req))
                 st jmg sol = (true, rs')).
    { rewrite Hcb in R. destruct R as [[p R]|[rp R]].
      - unfold single_solve in R.
        destruct (String.eqb (single_ik_link req) ""); [eapply S1|eapply S2]; exact R.
      - eapply S3; exact R. }
    destruct Hacc as (st & sol & Hacc).
    rewrite bind_isIKSolutionValid_eq in Hacc.
    injection Hacc as Hv Hrs. subst rs'.
    apply andb_true_iff in Hv. destruct Hv as [Hv _].
    unfold collision_free in Hv. now apply negb_true_iff in Hv.
Qed.

(** ** Forward kinematics *)

(** C6: an FK request without link names is answered [INVALID_LINK_NAME] at
    once: the only thing the handler does is log the error, the response
    lists are left as they were, and no lock is taken. *)
Theorem computeFKService_no_links
    (req : GetPositionFK_Request C) (res : GetPositionFK_Response C) :
  fk_link_names req = [] ->
  run (computeFKService req res) =
    ((true, mkFKResponse (res_pose_stamped res) (res_fk_link_names res) INVALID_LINK_NAME),
     [EvLogError])
  /\ existsb is_lock_event (events (computeFKService req res)) = false.
Proof.
  intro H. unfold events, run, computeFKService. rewrite H. split; reflexivity.
Qed.

Lemma fk_entries_cons (rs : RobotState) (dt : bool) (target name : string)
    (rest : list string) (t : Time) (ts : list Time) :
  hasLinkModel rs name = true ->
  fk_entries rs dt target (name :: rest) (t :: ts) =
    fk_entry rs dt target (name, t) :: fk_entries rs dt target rest ts.
Proof. intro H. unfold fk_entries. simpl. now rewrite H. Qed.

Lemma fk_entries_skip (rs : RobotState) (dt : bool) (target name : string)
    (rest : list string) (ts : list Time) :
  hasLinkModel rs name = false ->
  fk_entries rs dt target (name :: rest) ts = fk_entries rs dt target rest ts.
Proof. intro H. unfold fk_entries. simpl. now rewrite H. Qed.

Lemma fk_links_spec (rs : RobotState) (dt : bool) (target : string)
    (names : list string) :
  forall poses links tfp tr, exists ts,
    List.length ts = List.length (filter (hasLinkModel rs) names)
    /\ fst (fk_links names rs dt target getModelFrame poses links tfp tr) =
         (poses ++ map fst (fk_entries rs dt target names ts),
          links ++ filter (hasLinkModel rs) names,
          tfp || existsb snd (fk_entries rs dt target names ts)).
Proof.
  induction names as [|name rest IH]; intros poses links tfp tr.
  - exists []. split; [reflexivity|]. unfold fk_entries. simpl.
    now rewrite !app_nil_r, orb_false_r.
  - simpl. unfold bind at 1. unfold emit at 1.
    destruct (hasLinkModel rs name) eqn:Hh.
    + unfold bind, emit, now, history, ret, performTransform. simpl.
      match goal with
      | |- context [clock_now ?h] => set (t := clock_now h)
      end.
      assert (Hentry :
        fk_entry rs dt target (name, t) =
        if dt then
          match tf_transform (mkPoseStamped (mkHeader t getModelFrame)
                                (toMsg (getGlobalLinkTransform rs name))) target with
          | Some back' => (back', false)
          | None => (mkPoseStamped (mkHeader t getModelFrame)
                       (toMsg (getGlobalLinkTransform rs name)), true)
          end
        else (mkPoseStamped (mkHeader t getModelFrame)
                (toMsg (getGlobalLinkTransform rs name)), false)) by reflexivity.
      destruct dt;
        [ destruct (tf_transform (mkPoseStamped (mkHeader t getModelFrame)
                                    (toMsg (getGlobalLinkTransform rs name))) target)
            as [back'|] | ];
        match goal with
        | |- context [fk_links rest rs ?d target getModelFrame ?p ?l ?b ?h] =>
            destruct (IH p l b h) as [ts [L E]]
        end;
        exists (t :: ts); (split; [simpl; now rewrite L|]);
        rewrite E, (fk_entries_cons _ _ _ _ _ _ _ Hh), Hentry; simpl;
        rewrite <- !app_assoc, ?orb_true_r; reflexivity.
    + destruct (IH poses links tfp (tr ++ [EvHasLinkModel name])) as [ts [L E]].
      exists ts. split; [exact L|].
      rewrite E, (fk_entries_skip _ _ _ _ _ _ Hh). reflexivity.
Qed.

Lemma filter_all_length {A : Type} (f : A -> bool) (l : list A) :
  (List.length (filter f l) =? List.length l)%nat = forallb f l.
Proof.
  induction l as [|x l IH]; simpl; [reflexivity|].
  destruct (f x); simpl; [exact IH|].
  apply Nat.eqb_neq. pose proof (filter_length_le f l). lia.
Qed.

(** The response of an FK request with at least one link name, given the
    clock readings [ts] taken for the matched links. *)
Lemma computeFK_links_result (req : GetPositionFK_Request C) :
  exists ts,
    List.length ts = List.length (filter (hasLinkModel (fk_state req)) (fk_link_names req))
    /\ let entries :=
         fk_entries (fk_state req) (fk_do_transform req) (frame_id (fk_header req))
           (fk_link_names req) ts in
       result (computeFK_links req fresh_fk_response) =
         (true,
          mkFKResponse (map fst entries)
            (filter (hasLinkModel (fk_state req)) (fk_link_names req))
            (if existsb snd entries then FRAME_TRANSFORM_FAILURE
             else if forallb (hasLinkModel (fk_state req)) (fk_link_names req)
                  then SUCCESS else INVALID_LINK_NAME)).
Proof.
  unfold result, run, computeFK_links, bind, emit, ret. simpl.
  match goal with
  | |- context [fk_links ?n ?rs ?d ?tg ?df ?p ?l ?b ?h] =>
      destruct (fk_links_spec rs d tg n p l b h) as [ts [L E]];
      destruct (fk_links n rs d tg df p l b h) as [[[poses links] tfp] tr'] eqn:R
  end.
  exists ts. split; [exact L|].
  simpl in E. injection E as E1 E2 E3. subst poses links tfp.
  simpl. now rewrite filter_all_length.
Qed.

(** C7, as the code has it: for an FK request with at least one link name,
    the code is [FRAME_TRANSFORM_FAILURE] when the transform of some matched
    link's pose into the requested frame failed (the poses and names
    collected stay in the response), otherwise [SUCCESS] when every
    requested name is a link of the model, otherwise [INVALID_LINK_NAME]. *)
Theorem computeFKService_error_code (req : GetPositionFK_Request C) :
  fk_link_names req <> [] ->
  exists ts,
    let rs := fk_state req in
    let target := frame_id (fk_header req) in
    let matched := filter (hasLinkModel rs) (fk_link_names req) in
    let entries := fk_entries rs (fk_do_transform req) target (fk_link_names req) ts in
    let failed (nt : string * Time) :=
      fk_do_transform req
      && match tf_transform (default_pose rs (fst nt) (snd nt)) target with
         | Some _ => false
         | None => true
         end in
    let res := snd (result (computeFKService req fresh_fk_response)) in
    List.length ts = List.length matched
    /\ res_error_code res =
         (if existsb failed (combine matched ts) then FRAME_TRANSFORM_FAILURE
          else if forallb (hasLinkModel rs) (fk_link_names req) then SUCCESS
          else INVALID_LINK_NAME)
    /\ res_fk_link_names res = matched
    /\ res_pose_stamped res = map fst entries.
Proof.
  intro Hne.
  destruct (computeFK_links_result req) as [ts [L R]].
  exists ts. cbv zeta in *.
  assert (E : computeFKService req fresh_fk_response = computeFK_links req fresh_fk_response).
  { unfold computeFKService. destruct (fk_link_names req); [now elim Hne|reflexivity]. }
  rewrite E, R. simpl.
  split; [exact L|]. split; [|split; reflexivity].
  assert (X : forall l,
    existsb snd (map (fk_entry (fk_state req) (fk_do_transform req)
                        (frame_id (fk_header req))) l) =
    existsb (fun nt =>
      fk_do_transform req
      && match tf_transform (default_pose (fk_state req) (fst nt) (snd nt))
                 (frame_id (fk_header req)) with
         | Some _ => false
         | None => true
         end) l).
  { induction l as [|nt l IH]; simpl; [reflexivity|]. rewrite IH. f_equal.
    unfold fk_entry. destruct (fk_do_transform req); simpl; [|reflexivity].
    destruct (tf_transform _ _); reflexivity. }
  unfold fk_entries. now rewrite X.
Qed.

Lemma fk_entries_poses (req : GetPositionFK_Request C) (matched : list string) :
  forall ts, List.length ts = List.length matched ->
  Forall2 (fk_pose_of req) matched
    (map fst (map (fk_entry (fk_state req) (fk_do_transform req)
                     (frame_id (fk_header req))) (combine matched ts))).
Proof.
  induction matched as [|name rest IH]; intros [|t ts] L; simpl in *;
    try discriminate; constructor.
  - exists t. unfold fk_entry. simpl.
    destruct (fk_do_transform req); [|reflexivity].
    destruct (tf_transform _ _); reflexivity.
  - apply IH. now injection L.
Qed.

(** C10: the response of an FK request lists exactly the requested names
    that are links of the model, in request order, with one pose per name;
    a link whose transform into the requested frame fails is listed all the
    same, its pose still in the model frame. *)
Theorem computeFKService_lists (req : GetPositionFK_Request C) :
  let res := snd (result (computeFKService req fresh_fk_response)) in
  res_fk_link_names res = filter (hasLinkModel (fk_state req)) (fk_link_names req)
  /\ List.length (res_pose_stamped res) = List.length (res_fk_link_names res)
  /\ Forall2 (fk_pose_of req) (res_fk_link_names res) (res_pose_stamped res).
Proof.
  cbv zeta.
  destruct (fk_link_names req) as [|n l] eqn:N.
  - unfold result, run, computeFKService. rewrite N. simpl.
    repeat split. constructor.
  - assert (E : computeFKService req fresh_fk_response
                = computeFK_links req fresh_fk_response)
      by (unfold computeFKService; now rewrite N).
    destruct (computeFK_links_result req) as [ts [L R]].
    cbv zeta in R. rewrite E, R, N in *. simpl snd.
    cbn [res_fk_link_names res_pose_stamped].
    pose proof (fk_entries_poses req _ ts L) as F.
    split; [reflexivity|]. split; [|exact F].
    symmetry. exact (Forall2_length F).
Qed.

End CapabilityProperties.

(** * Concrete runs on the bench robot *)

Section BenchRuns.
#[local] Existing Instance Bench.arm.

Lemma search_respects_callback
    (cb : list Z -> string -> list Z -> bool * list Z) (jmg : string)
    (cands : list (list Z)) :
  forall rs rs',
    Bench.search (Some cb) rs jmg cands = (true, rs') ->
    exists st sol, cb st jmg sol = (true, rs').
Proof.
  induction cands as [|sol rest IH]; intros rs rs' H; simpl in H; [discriminate|].
  destruct (cb rs jmg sol) as [ok rs1] eqn:E. destruct ok.
  - injection H as <-. now exists rs, sol.
  - eapply IH. exact H.
Qed.

Lemma bench_solver_respects_callback : solver_respects_callback (C := Bench.arm).
Proof.
  repeat split; intros;
    match goal with
    | H : _ = (true, _) |- _ => exact (search_respects_callback _ _ _ _ _ H)
    end.
Qed.

(** The claim "an unknown group is rejected without touching the lock"
    fails: the group is looked up in the state copied under the lock. *)
Lemma unknown_group_takes_lock :
  getJointModelGroup (getCurrentState locked_scene)
    (group_name Bench.req_unknown_group) = None
  /\ ~ (error_code (snd (result (computeIKService Bench.req_unknown_group
                                   Bench.fresh_ik_response))) = INVALID_GROUP_NAME
        /\ existsb is_lock_event
             (events (computeIKService Bench.req_unknown_group
                        Bench.fresh_ik_response)) = false
        /\ existsb is_solver_event
             (events (computeIKService Bench.req_unknown_group
                        Bench.fresh_ik_response)) = false
        /\ existsb is_transform_event
             (events (computeIKService Bench.req_unknown_group
                        Bench.fresh_ik_response)) = false).
Proof.
  split; [reflexivity|].
  intros (_ & H & _). vm_compute in H. discriminate.
Qed.

Lemma unknown_group_witness :
  getJointModelGroup (getCurrentState locked_scene)
    (group_name Bench.req_unknown_group) = None
  /\ (run (computeIKService Bench.req_unknown_group Bench.fresh_ik_response) =
        ((true, mkIKResponse (solution Bench.fresh_ik_response) INVALID_GROUP_NAME),
         if keeps_lock Bench.req_unknown_group
         then [EvUpdateFrameTransforms; EvLockRO; EvGetCurrentState; EvKsetAdd;
               EvGetJointModelGroup (group_name Bench.req_unknown_group); EvUnlockRO]
         else [EvUpdateFrameTransforms; EvLockRO; EvGetCurrentState; EvUnlockRO;
               EvGetJointModelGroup (group_name Bench.req_unknown_group)])
      /\ existsb is_solver_event
           (events (computeIKService Bench.req_unknown_group
                      Bench.fresh_ik_response)) = false
      /\ existsb is_transform_event
           (events (computeIKService Bench.req_unknown_group
                      Bench.fresh_ik_response)) = false).
Proof.
  split; [reflexivity|].
  apply (computeIKService_unknown_group Bench.req_unknown_group Bench.fresh_ik_response).
  reflexivity.
Defined.

(** The claim "a pose that does not transform gives FRAME_TRANSFORM_FAILURE"
    fails for a request whose group is unknown, and for a request with more
    poses than link names: both are rejected before any transform. *)
Lemma bad_frame_not_reported :
  (transforms_ok getModelFrame (pose_stamped Bench.req_unknown_group) = false
   /\ error_code (snd (result (computeIKService Bench.req_unknown_group
                                 Bench.fresh_ik_response)))
      <> FRAME_TRANSFORM_FAILURE)
  /\ (existsb (fun q => negb (transforms_ok getModelFrame q))
        (pose_stamped_vector Bench.req_mismatch) = true
      /\ error_code (snd (result (computeIKService Bench.req_mismatch
                                    Bench.fresh_ik_response)))
         <> FRAME_TRANSFORM_FAILURE).
Proof.
  split; (split; [reflexivity|]); vm_compute; discriminate.
Qed.

Lemma transform_failure_witness :
  getJointModelGroup (getCurrentState locked_scene)
    (group_name Bench.req_bad_frame) = Some "arm"%string
  /\ (multi_pose Bench.req_bad_frame = true ->
      List.length (pose_stamped_vector Bench.req_bad_frame)
      = List.length (ik_link_names Bench.req_bad_frame))
  /\ ik_poses Bench.req_bad_frame =
       [Bench.at_frame "map" 4] ++ Bench.at_frame "mars" 3 :: [Bench.at_frame "map" 1]
  /\ forallb (transforms_ok getModelFrame) [Bench.at_frame "map" 4] = true
  /\ transforms_ok getModelFrame (Bench.at_frame "mars" 3) = false
  /\ (result (computeIKService Bench.req_bad_frame Bench.fresh_ik_response) =
        (true, mkIKResponse (solution Bench.fresh_ik_response) FRAME_TRANSFORM_FAILURE)
      /\ existsb is_solver_event
           (events (computeIKService Bench.req_bad_frame Bench.fresh_ik_response)) = false
      /\ filter is_transform_event
           (events (computeIKService Bench.req_bad_frame Bench.fresh_ik_response)) =
         map (transform_event getModelFrame)
           ([Bench.at_frame "map" 4] ++ [Bench.at_frame "mars" 3])).
Proof.
  repeat (split; [reflexivity|]).
  apply (computeIKService_transform_failure Bench.req_bad_frame Bench.fresh_ik_response
           "arm"%string [Bench.at_frame "map" 4] [Bench.at_frame "map" 1]
           (Bench.at_frame "mars" 3)); reflexivity.
Defined.

(** The claim "more poses than link names gives INVALID_LINK_NAME" fails
    when the group is unknown: the group is checked first. *)
Lemma mismatch_with_unknown_group :
  multi_pose Bench.req_unknown_group_mismatch = true
  /\ List.length (pose_stamped_vector Bench.req_unknown_group_mismatch)
     <> List.length (ik_link_names Bench.req_unknown_group_mismatch)
  /\ error_code (snd (result (computeIKService Bench.req_unknown_group_mismatch
                                Bench.fresh_ik_response)))
     <> INVALID_LINK_NAME.
Proof.
  split; [reflexivity|]. split; vm_compute; discriminate.
Qed.

Lemma count_mismatch_witness :
  multi_pose Bench.req_mismatch = true
  /\ List.length (pose_stamped_vector Bench.req_mismatch)
     <> List.length (ik_link_names Bench.req_mismatch)
  /\ (error_code (snd (result (computeIKService Bench.req_mismatch
                                 Bench.fresh_ik_response))) =
        match getJointModelGroup (getCurrentState locked_scene)
                (group_name Bench.req_mismatch) with
        | Some _ => INVALID_LINK_NAME
        | None => INVALID_GROUP_NAME
        end
      /\ solution (snd (result (computeIKService Bench.req_mismatch
                                  Bench.fresh_ik_response)))
         = solution Bench.fresh_ik_response
      /\ existsb is_solver_event
           (events (computeIKService Bench.req_mismatch Bench.fresh_ik_response)) = false
      /\ existsb is_transform_event
           (events (computeIKService Bench.req_mismatch Bench.fresh_ik_response)) = false).
Proof.
  split; [reflexivity|]. split; [simpl; lia|].
  apply (computeIKService_count_mismatch Bench.req_mismatch Bench.fresh_ik_response);
    [reflexivity | simpl; lia].
Defined.

Lemma no_links_witness :
  fk_link_names Bench.fk_no_links = []
  /\ (run (computeFKService Bench.fk_no_links fresh_fk_response) =
        ((true, mkFKResponse (res_pose_stamped fresh_fk_response)
                  (res_fk_link_names fresh_fk_response) INVALID_LINK_NAME),
         [EvLogError])
      /\ existsb is_lock_event
           (events (computeFKService Bench.fk_no_links fresh_fk_response)) = false).
Proof.
  split; [reflexivity|].
  apply (computeFKService_no_links Bench.fk_no_links fresh_fk_response). reflexivity.
Defined.

(** The claimed precedence fails on a request without link names: no
    transform failed and every requested name (there is none) is matched,
    yet the code is not [SUCCESS]. *)
Lemma no_links_not_success :
  forallb (hasLinkModel (fk_state Bench.fk_no_links)) (fk_link_names Bench.fk_no_links)
    = true
  /\ existsb is_transform_event
       (events (computeFKService Bench.fk_no_links fresh_fk_response)) = false
  /\ res_error_code (snd (result (computeFKService Bench.fk_no_links fresh_fk_response)))
     <> SUCCESS.
Proof.
  split; [reflexivity|]. split; [reflexivity|]. vm_compute. discriminate.
Qed.

Lemma error_code_witness :
  fk_link_names Bench.fk_bad_frame <> []
  /\ exists ts,
       let rs := fk_state Bench.fk_bad_frame in
       let target := frame_id (fk_header Bench.fk_bad_frame) in
       let matched := filter (hasLinkModel rs) (fk_link_names Bench.fk_bad_frame) in
       let entries :=
         fk_entries rs (fk_do_transform Bench.fk_bad_frame) target
           (fk_link_names Bench.fk_bad_frame) ts in
       let failed (nt : string * Time) :=
         fk_do_transform Bench.fk_bad_frame
         && match tf_transform (default_pose rs (fst nt) (snd nt)) target with
            | Some _ => false
            | None => true
            end in
       let res := snd (result (computeFKService Bench.fk_bad_frame fresh_fk_response)) in
       List.length ts = List.length matched
       /\ res_error_code res =
            (if existsb failed (combine matched ts) then FRAME_TRANSFORM_FAILURE
             else if forallb (hasLinkModel rs) (fk_link_names Bench.fk_bad_frame)
                  then SUCCESS
             else INVALID_LINK_NAME)
       /\ res_fk_link_names res = matched
       /\ res_pose_stamped res = map fst entries.
Proof.
  split; [discriminate|].
  apply (computeFKService_error_code Bench.fk_bad_frame). discriminate.
Defined.

Lemma avoids_collisions_witness :
  avoid_collisions Bench.req_avoid = true
  /\ solver_respects_callback
  /\ (exists cb,
         ik_callback Bench.req_avoid = Some cb
         /\ forall st jmg sol,
              isStateColliding locked_scene (candidate_state st jmg sol) (getName jmg)
                = true ->
              fst (cb st jmg sol) = false)
  /\ (error_code (snd (result (computeIKService Bench.req_avoid
                                 Bench.fresh_ik_response))) = SUCCESS ->
      exists jmg rs',
        getJointModelGroup (getCurrentState locked_scene) (group_name Bench.req_avoid)
          = Some jmg
        /\ solution (snd (result (computeIKService Bench.req_avoid
                                    Bench.fresh_ik_response)))
           = robotStateToRobotStateMsg rs' (solution Bench.fresh_ik_response) false
        /\ isStateColliding locked_scene rs' (getName jmg) = false).
Proof.
  split; [reflexivity|]. split; [exact bench_solver_respects_callback|].
  apply (computeIKService_avoids_collisions Bench.req_avoid Bench.fresh_ik_response);
    [reflexivity | exact bench_solver_respects_callback].
Defined.

(** The run behind the witness: the candidate 3 collides and is skipped,
    the request succeeds with -3. *)
Example avoid_run :
  result (computeIKService Bench.req_avoid Bench.fresh_ik_response) =
    (true, mkIKResponse [(-3)%Z] SUCCESS).
Proof. reflexivity. Qed.

Lemma failure_keeps_solution_witness :
  error_code (snd (result (computeIKService Bench.req_unknown_group
                             Bench.fresh_ik_response))) <> SUCCESS
  /\ (solution (snd (result (computeIKService Bench.req_unknown_group
                               Bench.fresh_ik_response)))
        = solution Bench.fresh_ik_response
      /\ existsb is_solution_write
           (events (computeIKService Bench.req_unknown_group
                      Bench.fresh_ik_response)) = false).
Proof.
  split; [vm_compute; discriminate|].
  apply (computeIKService_failure_keeps_solution Bench.req_unknown_group
           Bench.fresh_ik_response).
  vm_compute. discriminate.
Defined.
End BenchRuns.

(** * Further properties of the IK and FK handlers *)

Section DispatchProperties.
Context {C : Collaborators}.

(** ** The pose loop, exactly *)

Lemma transform_poses_exact (msgs : list (PoseStamped Time Pose)) (df : string) :
  forall acc ec,
    run (transform_poses msgs df acc ec) =
      ((forallb (transforms_ok df) msgs, acc ++ converted df msgs,
        if forallb (transforms_ok df) msgs then ec else FRAME_TRANSFORM_FAILURE),
       map (transform_event df) (attempted df msgs)).
Proof.
  induction msgs as [|q rest IH]; intros acc ec.
  - unfold run. simpl. now rewrite app_nil_r.
  - unfold run. simpl. unfold bind at 1. unfold performTransform, bind, emit, ret.
    simpl.
    assert (Hq : transforms_ok df q =
                 match tf_transform q df with Some _ => true | None => false end)
      by reflexivity.
    destruct (tf_transform q df) as [q'|] eqn:E; rewrite Hq.
    + rewrite (framed_run _ (framed_transform_poses rest df _ _)).
      unfold result, events. rewrite IH. simpl. now rewrite <- app_assoc.
    + simpl. now rewrite app_nil_r.
Qed.

Lemma attempted_all_ok (df : string) (msgs : list (PoseStamped Time Pose)) :
  forallb (transforms_ok df) msgs = true -> attempted df msgs = msgs.
Proof.
  induction msgs as [|q rest IH]; simpl; [reflexivity|].
  intro H. apply andb_true_iff in H. destruct H as [Hq Hr]. now rewrite Hq, IH.
Qed.

Lemma attempted_prefix (df : string) (msgs : list (PoseStamped Time Pose)) :
  exists rest, msgs = attempted df msgs ++ rest.
Proof.
  induction msgs as [|q tl IH]; simpl; [now exists []|].
  destruct (transforms_ok df q).
  - destruct IH as [rest IH]. exists rest. now rewrite <- IH.
  - now exists tl.
Qed.

Lemma solved_code (o : IKOut) (r : bool * RobotState) :
  out_error_code (solved o r) = if fst r then SUCCESS else NO_IK_SOLUTION.
Proof. unfold solved. destruct (fst r); reflexivity. Qed.

Lemma computeIK_multi_exact (req : PositionIKRequest C) (o : IKOut)
    (jmg : JointModelGroup) (cb : GroupStateValidityCallbackFn) (df : string) :
  run (computeIK_multi req o jmg cb df) =
    if negb (List.length (pose_stamped_vector req) =? List.length (ik_link_names req))%nat
    then (set_error_code o INVALID_LINK_NAME, [])
    else if forallb (transforms_ok df) (pose_stamped_vector req)
    then
      let r := setFromIK_poses (out_rs o) jmg (converted df (pose_stamped_vector req))
                 (ik_link_names req) (sec (timeout req)) cb in
      (solved o r,
       map (transform_event df) (pose_stamped_vector req)
         ++ [EvSetFromIK (IKPoses (ik_link_names req))] ++ solved_events r)
    else
      (set_error_code o FRAME_TRANSFORM_FAILURE,
       map (transform_event df) (attempted df (pose_stamped_vector req))).
Proof.
  unfold computeIK_multi.
  destruct (negb (_ =? _)%nat); [reflexivity|].
  pose proof (transform_poses_exact (pose_stamped_vector req) df [] (out_error_code o)) as E.
  unfold run, bind in *. rewrite E. clear E.
  destruct (forallb (transforms_ok df) (pose_stamped_vector req)) eqn:A.
  - unfold emit. simpl.
    rewrite (framed_run _ (framed_after_solve _ _)). unfold result, events.
    rewrite after_solve_run. simpl.
    rewrite (attempted_all_ok _ _ A).
    destruct o as [sol ec rs]. simpl. rewrite <- app_assoc. reflexivity.
  - simpl. destruct o; reflexivity.
Qed.

(** ** The shape of every [computeIK] trace *)

Lemma merged_rs (req : PositionIKRequest C) (o o' : IKOut) :
  out_rs o = out_rs o' -> out_rs (merged req o) = out_rs (merged req o').
Proof. intro H. unfold merged. destruct (negb _); simpl; now rewrite ?H. Qed.

Lemma solved_events_ending (o : IKOut) (r : bool * RobotState) (call : IKCall) :
  ik_ending (out_error_code (solved o r)) ([EvSetFromIK call] ++ solved_events r).
Proof.
  unfold ik_ending, solved, solved_events. destruct (fst r); simpl.
  - right. right. now exists call.
  - right. left. now exists call.
Qed.

(** [computeIK] looks the group up, merges the request state at most once,
    transforms a prefix of the request's poses into the model frame, and ends
    in one of the three ways of [ik_ending]. *)
Lemma computeIK_shape (req : PositionIKRequest C) (o : IKOut)
    (cb : GroupStateValidityCallbackFn) :
  exists merge ts rest tail,
    events (computeIK req o cb) =
      [EvGetJointModelGroup (group_name req)] ++ merge
        ++ map (transform_event getModelFrame) ts ++ tail
    /\ (merge = [] \/ merge = [EvRobotStateMsgToRobotState])
    /\ ik_poses req = ts ++ rest
    /\ ik_ending (out_error_code (result (computeIK req o cb))) tail.
Proof.
  unfold result, events. rewrite computeIK_run.
  destruct (getJointModelGroup (out_rs o) (group_name req)) as [jmg|].
  2:{ exists [], [], (ik_poses req), []. simpl.
      repeat split; auto. left. auto. }
  assert (Hm : merge_events req = [] \/ merge_events req = [EvRobotStateMsgToRobotState])
    by (unfold merge_events; destruct (negb _); auto).
  unfold ik_branch, ik_poses. simpl.
  destruct (multi_pose req).
  - unfold result, events. rewrite computeIK_multi_exact.
    destruct (negb (_ =? _)%nat).
    { exists (merge_events req), [], (pose_stamped_vector req), []. simpl.
      repeat split; auto. left. auto. }
    destruct (forallb _ _) eqn:A.
    + cbv zeta. simpl fst. simpl snd.
      exists (merge_events req), (pose_stamped_vector req), [].
      eexists. split; [reflexivity|]. split; [exact Hm|].
      split; [now rewrite app_nil_r|]. apply solved_events_ending.
    + destruct (attempted_prefix getModelFrame (pose_stamped_vector req)) as [rest R].
      exists (merge_events req), (attempted getModelFrame (pose_stamped_vector req)),
        rest, [].
      simpl. rewrite app_nil_r. repeat split; auto. left. auto.
  - unfold result, events. rewrite computeIK_single_run.
    destruct (tf_transform (single_pose req) getModelFrame) as [p|].
    + simpl fst. simpl snd.
      exists (merge_events req), [single_pose req], [].
      eexists. split; [reflexivity|]. split; [exact Hm|].
      split; [reflexivity|]. apply solved_events_ending.
    + exists (merge_events req), [single_pose req], [], [].
      simpl. repeat split; auto. left. auto.
Qed.

Lemma ik_ending_solver_count (code : MoveItErrorCodes) (tail : list Event) :
  ik_ending code tail ->
  List.length (filter is_solver_event tail) =
    (if match code with SUCCESS | NO_IK_SOLUTION => true | _ => false end then 1 else 0)
  /\ existsb is_solution_write tail =
       match code with SUCCESS => true | _ => false end
  /\ code <> UNDEFINED.
Proof.
  intros [[Ht Hc] | [[c [Ht Hc]] | [c [Ht Hc]]]]; subst tail.
  - destruct Hc as [Hc | [Hc | Hc]]; subst code; repeat split; discriminate.
  - subst code. repeat split; discriminate.
  - subst code. repeat split; discriminate.
Qed.

Lemma filter_transform_events_none (P : Event -> bool) (df : string)
    (l : list (PoseStamped Time Pose)) :
  (forall a b, P (EvPerformTransform a b) = false) ->
  filter P (map (transform_event df) l) = [].
Proof.
  intro H. induction l as [|q l IH]; simpl; [reflexivity|].
  unfold transform_event at 1. now rewrite H, IH.
Qed.

(** X1: the solver is entered at most once per IK request, and exactly once
    when the answer is [SUCCESS] or [NO_IK_SOLUTION]; the solution message is
    written exactly when the answer is [SUCCESS]; the error code is never
    left undefined and the handler returns true. *)
Theorem computeIKService_solver_once
    (req : PositionIKRequest C) (res : GetPositionIK_Response C) :
  let tr := events (computeIKService req res) in
  let code := error_code (snd (result (computeIKService req res))) in
  fst (result (computeIKService req res)) = true
  /\ code <> UNDEFINED
  /\ List.length (filter is_solver_event tr) <= 1
  /\ (List.length (filter is_solver_event tr) = 1
      <-> code = SUCCESS \/ code = NO_IK_SOLUTION)
  /\ (existsb is_solution_write tr = true <-> code = SUCCESS).
Proof.
  cbv zeta.
  rewrite computeIKService_result,
    (computeIKService_filter _ req res body_only_solver),
    (computeIKService_existsb _ req res body_only_solution_write).
  simpl fst. simpl snd. simpl error_code. unfold ik_body.
  destruct (computeIK_shape req (ik_out0 res) (ik_callback req))
    as (merge & ts & rest & tail & E & Hm & _ & T).
  rewrite E.
  destruct (ik_ending_solver_count _ _ T) as (N & W & U).
  assert (F : filter is_solver_event
                ([EvGetJointModelGroup (group_name req)] ++ merge
                   ++ map (transform_event getModelFrame) ts ++ tail)
              = filter is_solver_event tail).
  { rewrite !filter_app, filter_transform_events_none by reflexivity.
    destruct Hm as [-> | ->]; reflexivity. }
  assert (X : existsb is_solution_write
                ([EvGetJointModelGroup (group_name req)] ++ merge
                   ++ map (transform_event getModelFrame) ts ++ tail)
              = existsb is_solution_write tail).
  { rewrite !existsb_app, existsb_transform_events by reflexivity.
    destruct Hm as [-> | ->]; reflexivity. }
  rewrite F, X, N, W.
  split; [reflexivity|]. split; [exact U|].
  destruct (out_error_code (result (computeIK req (ik_out0 res) (ik_callback req))));
    repeat split; intros; auto; try discriminate; try lia;
    try (destruct H; discriminate).
Qed.

(** X2: the complete order of calls of an IK request.  After the lock
    prologue the handler looks the group up, merges the request's robot state
    at most once, transforms a prefix of the request's poses, in order and
    always into the model frame, and only then may call the solver, once; a
    solution write, if any, follows the solver call directly.  The unlock
    comes last when the lock is kept. *)
Theorem computeIKService_call_order
    (req : PositionIKRequest C) (res : GetPositionIK_Response C) :
  exists merge ts rest tail,
    events (computeIKService req res) =
      (if keeps_lock req
       then [EvUpdateFrameTransforms; EvLockRO; EvGetCurrentState; EvKsetAdd]
       else [EvUpdateFrameTransforms; EvLockRO; EvGetCurrentState; EvUnlockRO])
      ++ [EvGetJointModelGroup (group_name req)] ++ merge
      ++ map (transform_event getModelFrame) ts ++ tail
      ++ (if keeps_lock req then [EvUnlockRO] else [])
    /\ (merge = [] \/ merge = [EvRobotStateMsgToRobotState])
    /\ ik_poses req = ts ++ rest
    /\ ik_ending (error_code (snd (result (computeIKService req res)))) tail.
Proof.
  destruct (computeIK_shape req (ik_out0 res) (ik_callback req))
    as (merge & ts & rest & tail & E & Hm & Hp & T).
  exists merge, ts, rest, tail.
  rewrite computeIKService_events, computeIKService_result. unfold ik_body.
  rewrite E. simpl snd. simpl error_code.
  split; [|now repeat split].
  destruct (keeps_lock req); unfold locked_prefix, snapshot_prefix;
    rewrite <- ?app_assoc, ?app_nil_r; reflexivity.
Qed.

Lemma single_solve_rs (req : PositionIKRequest C) (o o' : IKOut) (jmg : JointModelGroup)
    (cb : GroupStateValidityCallbackFn) (p : PoseStamped Time Pose) :
  out_rs o = out_rs o' -> single_solve req o jmg cb p = single_solve req o' jmg cb p.
Proof. intro H. unfold single_solve. now rewrite H. Qed.

Lemma computeIK_rs_only (req : PositionIKRequest C) (o o' : IKOut)
    (cb : GroupStateValidityCallbackFn) :
  out_rs o = out_rs o' ->
  out_error_code (result (computeIK req o cb)) = out_error_code (result (computeIK req o' cb))
  /\ events (computeIK req o cb) = events (computeIK req o' cb).
Proof.
  intro H. unfold result, events. rewrite !computeIK_run, H.
  destruct (getJointModelGroup (out_rs o') (group_name req)) as [jmg|];
    [|split; reflexivity].
  unfold ik_branch. simpl.
  pose proof (merged_rs req o o' H) as Hm.
  destruct (multi_pose req).
  - unfold result, events. rewrite !computeIK_multi_exact, Hm.
    destruct (negb (_ =? _)%nat); [split; reflexivity|].
    destruct (forallb _ _); [|split; reflexivity].
    cbv zeta. simpl. now rewrite !solved_code.
  - unfold result, events. rewrite !computeIK_single_run.
    destruct (tf_transform (single_pose req) getModelFrame) as [p|];
      [|split; reflexivity].
    simpl. now rewrite !solved_code, (single_solve_rs req _ _ jmg cb p Hm).
Qed.

(** X3: the incoming response does not steer the handler: whatever solution
    and error code the response holds on entry, the error code returned and
    the calls made are the same. *)
Theorem computeIKService_ignores_incoming_response
    (req : PositionIKRequest C) (res res' : GetPositionIK_Response C) :
  error_code (snd (result (computeIKService req res)))
    = error_code (snd (result (computeIKService req res')))
  /\ events (computeIKService req res) = events (computeIKService req res').
Proof.
  rewrite !computeIKService_result, !computeIKService_events. unfold ik_body.
  destruct (computeIK_rs_only req (ik_out0 res) (ik_out0 res') (ik_callback req) eq_refl)
    as [E1 E2].
  simpl. now rewrite E1, E2.
Qed.

(** X4: only the whole seconds of the timeout reach the solver: changing the
    nanoseconds of the request's timeout changes neither the response nor the
    calls. *)
Theorem computeIKService_ignores_timeout_nanosec
    (req : PositionIKRequest C) (res : GetPositionIK_Response C) (ns : Z) :
  run (computeIKService (with_timeout_nanosec req ns) res) = run (computeIKService req res).
Proof.
  rewrite !computeIKService_run.
  assert (B : ik_body (with_timeout_nanosec req ns) res = ik_body req res).
  { unfold ik_body, computeIK. simpl.
    destruct (getJointModelGroup _ _); [|reflexivity].
    destruct (pose_stamped_vector req) as [|p [|p' l]] eqn:V; reflexivity. }
  now rewrite B.
Qed.

(** X5: a request with exactly one entry in its pose vector is handled as the
    request that carries that pose in [pose_stamped] and the first entry of
    [ik_link_names] (or no link name, when that list is empty) in
    [ik_link_name]: its own [pose_stamped] and [ik_link_name] are not read. *)
Theorem computeIKService_one_pose_vector
    (req : PositionIKRequest C) (res : GetPositionIK_Response C)
    (p : PoseStamped Time Pose) :
  pose_stamped_vector req = [p] ->
  run (computeIKService req res) =
    run (computeIKService (as_scalar_request req p (hd "" (ik_link_names req))) res).
Proof.
  intro V. rewrite !computeIKService_run.
  assert (B : run (ik_body req res) =
              run (ik_body (as_scalar_request req p (hd "" (ik_link_names req))) res)).
  { unfold ik_body. rewrite !computeIK_run. simpl group_name.
    change (out_rs (ik_out0 res)) with (getCurrentState locked_scene).
    destruct (getJointModelGroup (getCurrentState locked_scene) (group_name req))
      as [jmg|]; [|reflexivity].
    unfold ik_branch, multi_pose. rewrite V. simpl.
    unfold result, events. rewrite !computeIK_single_run.
    unfold single_pose, single_solve, single_call, single_ik_link. rewrite V. simpl.
    destruct (ik_link_names req); reflexivity. }
  unfold result, events. rewrite B. reflexivity.
Qed.

Lemma converted_length (df : string) (msgs : list (PoseStamped Time Pose)) :
  forallb (transforms_ok df) msgs = true ->
  List.length (converted df msgs) = List.length msgs.
Proof.
  induction msgs as [|q rest IH]; simpl; [reflexivity|].
  unfold transforms_ok at 1. destruct (tf_transform q df); [|discriminate].
  simpl. intro H. now rewrite IH.
Qed.

Lemma solved_solution (o : IKOut) (r : bool * RobotState) :
  fst r = true ->
  out_solution (solved o r) = robotStateToRobotStateMsg (snd r) (out_solution o) false.
Proof. intro H. unfold solved. now rewrite H. Qed.

Lemma filter_solver_events (req : PositionIKRequest C) (ts : list (PoseStamped Time Pose))
    (call : IKCall) (r : bool * RobotState) :
  filter is_solver_event
    (EvGetJointModelGroup (group_name req)
       :: merge_events req
       ++ map (transform_event getModelFrame) ts ++ EvSetFromIK call :: solved_events r)
  = [EvSetFromIK call].
Proof.
  simpl. rewrite !filter_app, filter_merge_events, filter_transform_events_none
    by reflexivity.
  simpl. unfold solved_events. destruct (fst r); reflexivity.
Qed.

Lemma filter_transform_run (req : PositionIKRequest C) (ts : list (PoseStamped Time Pose))
    (call : IKCall) (r : bool * RobotState) :
  filter is_transform_event
    (EvGetJointModelGroup (group_name req)
       :: merge_events req
       ++ map (transform_event getModelFrame) ts ++ EvSetFromIK call :: solved_events r)
  = map (transform_event getModelFrame) ts.
Proof.
  simpl. rewrite !filter_app, filter_merge_events, filter_transform_events
    by reflexivity.
  unfold solved_events. destruct (fst r); simpl; now rewrite app_nil_r.
Qed.

(** X6: a multi-pose request that passes the checks (group resolved, as many
    link names as poses, every pose transforms) calls the multi-tip solver
    once, on the current state merged with the request's state, with one
    converted pose per request pose in request order and the request's link
    names; each pose is transformed exactly once, in order.  The answer is
    [SUCCESS] with the converted solver state when the solver reports
    success, [NO_IK_SOLUTION] otherwise. *)
Theorem computeIKService_multi_pose_solve
    (req : PositionIKRequest C) (res : GetPositionIK_Response C) (jmg : JointModelGroup) :
  getJointModelGroup (getCurrentState locked_scene) (group_name req) = Some jmg ->
  multi_pose req = true ->
  List.length (pose_stamped_vector req) = List.length (ik_link_names req) ->
  forallb (transforms_ok getModelFrame) (pose_stamped_vector req) = true ->
  let r := setFromIK_poses (out_rs (merged req (ik_out0 res))) jmg
             (converted getModelFrame (pose_stamped_vector req))
             (ik_link_names req) (sec (timeout req)) (ik_callback req) in
  List.length (converted getModelFrame (pose_stamped_vector req))
    = List.length (pose_stamped_vector req)
  /\ error_code (snd (result (computeIKService req res)))
     = (if fst r then SUCCESS else NO_IK_SOLUTION)
  /\ (fst r = true ->
      solution (snd (result (computeIKService req res)))
      = robotStateToRobotStateMsg (snd r) (solution res) false)
  /\ filter is_solver_event (events (computeIKService req res))
     = [EvSetFromIK (IKPoses (ik_link_names req))]
  /\ filter is_transform_event (events (computeIKService req res))
     = map (transform_event getModelFrame) (pose_stamped_vector req).
Proof.
  intros G Hm Hn Hok r.
  split; [now apply converted_length|].
  rewrite computeIKService_result,
    (computeIKService_filter _ req res body_only_solver),
    (computeIKService_filter _ req res body_only_transform).
  unfold ik_body, result, events. rewrite computeIK_run.
  change (out_rs (ik_out0 res)) with (getCurrentState locked_scene). rewrite G.
  unfold ik_branch. rewrite Hm.
  unfold result, events. rewrite computeIK_multi_exact, Hn, Nat.eqb_refl, Hok.
  cbv zeta. simpl negb. cbv iota. simpl fst. simpl snd.
  simpl error_code. simpl solution. fold r.
  rewrite solved_code, filter_solver_events, filter_transform_run.
  repeat split. intro Hr. now rewrite solved_solution, merged_solution.
Qed.

(** X7: a request with at most one pose that passes the checks (group
    resolved, pose transforms) calls the solver once, on the current state
    merged with the request's state and with the transformed pose: the
    default-tip overload when the link name is empty, the named-tip overload
    otherwise.  The answer is [SUCCESS] with the converted solver state when
    the solver reports success, [NO_IK_SOLUTION] otherwise. *)
Theorem computeIKService_single_pose_solve
    (req : PositionIKRequest C) (res : GetPositionIK_Response C) (jmg : JointModelGroup)
    (p : PoseStamped Time Pose) :
  getJointModelGroup (getCurrentState locked_scene) (group_name req) = Some jmg ->
  multi_pose req = false ->
  tf_transform (single_pose req) getModelFrame = Some p ->
  let o := merged req (ik_out0 res) in
  let r := if String.eqb (single_ik_link req) ""
           then setFromIK (out_rs o) jmg (pose p) (sec (timeout req)) (ik_callback req)
           else setFromIK_tip (out_rs o) jmg (pose p) (single_ik_link req)
                  (sec (timeout req)) (ik_callback req) in
  error_code (snd (result (computeIKService req res)))
    = (if fst r then SUCCESS else NO_IK_SOLUTION)
  /\ (fst r = true ->
      solution (snd (result (computeIKService req res)))
      = robotStateToRobotStateMsg (snd r) (solution res) false)
  /\ filter is_solver_event (events (computeIKService req res))
     = [EvSetFromIK (if String.eqb (single_ik_link req) ""
                     then IKPose else IKPoseTip (single_ik_link req))]
  /\ filter is_transform_event (events (computeIKService req res))
     = [EvPerformTransform (frame_id (header (single_pose req))) getModelFrame].
Proof.
  intros G Hm T o r.
  rewrite computeIKService_result,
    (computeIKService_filter _ req res body_only_solver),
    (computeIKService_filter _ req res body_only_transform).
  unfold ik_body, result, events. rewrite computeIK_run.
  change (out_rs (ik_out0 res)) with (getCurrentState locked_scene). rewrite G.
  unfold ik_branch. rewrite Hm.
  unfold result, events. rewrite computeIK_single_run, T.
  simpl fst. simpl snd. simpl error_code. simpl solution.
  change (single_solve req (merged req (ik_out0 res)) jmg (ik_callback req) p) with r.
  change (single_call req)
    with (if String.eqb (single_ik_link req) "" then IKPose
          else IKPoseTip (single_ik_link req)).
  rewrite solved_code.
  pose proof (filter_solver_events req [single_pose req]
                (if String.eqb (single_ik_link req) "" then IKPose
                 else IKPoseTip (single_ik_link req)) r) as Fs.
  pose proof (filter_transform_run req [single_pose req]
                (if String.eqb (single_ik_link req) "" then IKPose
                 else IKPoseTip (single_ik_link req)) r) as Ft.
  simpl map in Fs, Ft. simpl app in Fs, Ft. simpl app.
  unfold transform_event in Fs, Ft at 1. unfold transform_event.
  rewrite Fs, Ft.
  repeat split. intro Hr. now rewrite solved_solution, merged_solution.
Qed.

(** X8: constraints that configure to an empty constraint set, without
    collision avoidance, still keep the scene locked across [computeIK], but
    the callback handed to the solver accepts every candidate. *)
Theorem computeIKService_empty_constraint_set
    (req : PositionIKRequest C) (res : GetPositionIK_Response C) :
  avoid_collisions req = false ->
  isEmpty_constraints (constraints req) = false ->
  kset_empty (ik_kset req) = true ->
  exists cb,
    (forall st jmg sol, cb st jmg sol = (true, candidate_state st jmg sol))
    /\ run (computeIKService req res) =
         ((true,
           mkIKResponse
             (out_solution (result (computeIK req (ik_out0 res) (Some cb))))
             (out_error_code (result (computeIK req (ik_out0 res) (Some cb))))),
          [EvUpdateFrameTransforms; EvLockRO; EvGetCurrentState; EvKsetAdd]
            ++ events (computeIK req (ik_out0 res) (Some cb)) ++ [EvUnlockRO]).
Proof.
  intros Ha Hc Hk.
  exists (bind_isIKSolutionValid None None).
  split; [intros; now rewrite bind_isIKSolutionValid_eq|].
  rewrite computeIKService_run. unfold ik_body, ik_callback, keeps_lock.
  now rewrite Ha, Hc, Hk.
Qed.

(** ** Forward kinematics: calls and response lists *)

Lemma fk_links_events (rs : RobotState) (dt : bool) (target : string)
    (names : list string) :
  forall poses links tfp tr,
    snd (fk_links names rs dt target getModelFrame poses links tfp tr) =
      tr ++ flat_map (link_events rs dt target) names.
Proof.
  induction names as [|name rest IH]; intros poses links tfp tr; simpl.
  - now rewrite app_nil_r.
  - unfold bind at 1. unfold emit at 1. unfold link_events at 1.
    destruct (hasLinkModel rs name).
    + unfold bind, emit, now, history, ret, performTransform. simpl.
      destruct dt; [destruct (tf_transform _ _)|];
        rewrite IH; simpl; rewrite <- !app_assoc; reflexivity.
    + rewrite IH. now rewrite <- app_assoc.
Qed.

Lemma computeFKService_nonempty (req : GetPositionFK_Request C)
    (res : GetPositionFK_Response C) :
  fk_link_names req <> [] -> computeFKService req res = computeFK_links req res.
Proof.
  intro H. unfold computeFKService. destruct (fk_link_names req); [now elim H|reflexivity].
Qed.

Lemma computeFK_links_trace
    (req : GetPositionFK_Request C) (res : GetPositionFK_Response C) :
  events (computeFK_links req res) =
    fk_prologue
    ++ flat_map (link_events (fk_state req) (fk_do_transform req)
                   (frame_id (fk_header req))) (fk_link_names req).
Proof.
  unfold events, run, computeFK_links, bind, emit, ret. simpl.
  match goal with
  | |- context [fk_links ?n ?rs ?d ?tg ?df ?p ?l ?b ?h] =>
      pose proof (fk_links_events rs d tg n p l b h) as E;
      destruct (fk_links n rs d tg df p l b h) as [[[poses links] tfp] tr']
  end.
  simpl in *. exact E.
Qed.

(** X11: every FK request with link names makes the same calls, whatever the
    incoming response: the transforms are refreshed, the current state is
    copied under the read lock, the lock is released and the request's robot
    state is merged (always, even when empty); then, with no lock held, each
    requested name is looked up in the model once, in request order, and each
    name that is a link costs one link-transform read and one clock read,
    plus one transform from the model frame into the requested frame when a
    transform is wanted. *)
Theorem computeFKService_trace
    (req : GetPositionFK_Request C) (res : GetPositionFK_Response C) :
  fk_link_names req <> [] ->
  events (computeFKService req res) =
    [EvUpdateFrameTransforms; EvLockRO; EvGetCurrentState; EvUnlockRO;
     EvRobotStateMsgToRobotState]
    ++ flat_map (link_events (fk_state req) (fk_do_transform req)
                   (frame_id (fk_header req))) (fk_link_names req)
  /\ lock_depth (events (computeFKService req res)) = 0.
Proof.
  intro H. rewrite (computeFKService_nonempty req res H), computeFK_links_trace.
  split; [reflexivity|].
  unfold lock_depth, fk_prologue. simpl. clear H.
  induction (fk_link_names req) as [|name rest IH]; simpl; [reflexivity|].
  unfold link_events at 1. simpl.
  destruct (hasLinkModel (fk_state req) name); simpl; [|exact IH].
  destruct (fk_do_transform req); simpl; exact IH.
Qed.

(** X12: the FK handler only appends to the response lists: the poses and
    names an incoming response already holds stay in front, the matched
    names and their poses follow, and the error code compares the length of
    the whole name list with the request. *)
Theorem computeFKService_appends
    (req : GetPositionFK_Request C) (res : GetPositionFK_Response C) :
  fk_link_names req <> [] ->
  exists ts,
    let rs := fk_state req in
    let matched := filter (hasLinkModel rs) (fk_link_names req) in
    let entries :=
      fk_entries rs (fk_do_transform req) (frame_id (fk_header req))
        (fk_link_names req) ts in
    let out := snd (result (computeFKService req res)) in
    List.length ts = List.length matched
    /\ res_pose_stamped out = res_pose_stamped res ++ map fst entries
    /\ res_fk_link_names out = res_fk_link_names res ++ matched
    /\ res_error_code out =
         (if existsb snd entries then FRAME_TRANSFORM_FAILURE
          else if (List.length (res_fk_link_names res ++ matched)
                   =? List.length (fk_link_names req))%nat
               then SUCCESS else INVALID_LINK_NAME).
Proof.
  intro H. rewrite (computeFKService_nonempty req res H).
  unfold result, run, computeFK_links, bind, emit, ret. simpl.
  match goal with
  | |- context [fk_links ?n ?rs ?d ?tg ?df ?p ?l ?b ?h] =>
      destruct (fk_links_spec rs d tg n p l b h) as [ts [L E]];
      destruct (fk_links n rs d tg df p l b h) as [[[poses links] tfp] tr'] eqn:R
  end.
  exists ts. simpl in E. injection E as E1 E2 E3. subst poses links tfp.
  simpl. repeat split. exact L.
Qed.

Lemma forallb_filter_id {A : Type} (f : A -> bool) (l : list A) :
  forallb f l = true -> filter f l = l.
Proof.
  induction l as [|x l IH]; simpl; [reflexivity|].
  intro H. apply andb_true_iff in H. destruct H as [Hx Hl]. now rewrite Hx, IH.
Qed.

Lemma forallb_false_witness {A : Type} (f : A -> bool) (l : list A) :
  forallb f l = false -> exists x, In x l /\ f x = false.
Proof.
  induction l as [|x l IH]; simpl; [discriminate|].
  destruct (f x) eqn:E; simpl.
  - intro H. destruct (IH H) as [y [I F]]. exists y. auto.
  - intros _. exists x. auto.
Qed.

(** X13: on a fresh response, [SUCCESS] means the response lists are parallel
    to the request: the names returned are the names requested and there is
    one pose per requested name.  [INVALID_LINK_NAME] on a request with link
    names means some requested name is not a link of the model, and
    [SUCCESS] is never returned in that case. *)
Theorem computeFKService_success_is_complete (req : GetPositionFK_Request C) :
  fk_link_names req <> [] ->
  let out := snd (result (computeFKService req fresh_fk_response)) in
  (res_error_code out = SUCCESS ->
   res_fk_link_names out = fk_link_names req
   /\ List.length (res_pose_stamped out) = List.length (fk_link_names req))
  /\ (res_error_code out = INVALID_LINK_NAME ->
      exists name, In name (fk_link_names req)
                   /\ hasLinkModel (fk_state req) name = false)
  /\ (forallb (hasLinkModel (fk_state req)) (fk_link_names req) = false ->
      res_error_code out <> SUCCESS).
Proof.
  intro H. cbv zeta. rewrite (computeFKService_nonempty _ _ H).
  destruct (computeFK_links_result req) as [ts [L R]]. cbv zeta in R. rewrite R.
  simpl snd. cbn [res_error_code res_fk_link_names res_pose_stamped].
  unfold fk_entries. rewrite !length_map, length_combine, <- L, Nat.min_id.
  destruct (existsb snd _).
  - repeat split; intros; discriminate.
  - destruct (forallb (hasLinkModel (fk_state req)) (fk_link_names req)) eqn:A.
    + rewrite (forallb_filter_id _ _ A) in *.
      repeat split; intros; try discriminate; auto.
    + repeat split; intros; try discriminate.
      now apply forallb_false_witness.
Qed.

Lemma existsb_link_events_no_transform (rs : RobotState) (target : string)
    (names : list string) :
  existsb is_transform_event (flat_map (link_events rs false target) names) = false.
Proof.
  induction names as [|name rest IH]; simpl; [reflexivity|].
  unfold link_events at 1. destruct (hasLinkModel rs name); simpl; exact IH.
Qed.

Lemma fk_entries_model_frame (rs : RobotState) (target : string) (matched : list string) :
  forall ts, List.length ts = List.length matched ->
  existsb snd (map (fk_entry rs false target) (combine matched ts)) = false
  /\ Forall2 (fun name ps =>
                frame_id (header ps) = getModelFrame
                /\ pose ps = toMsg (getGlobalLinkTransform rs name))
       matched (map fst (map (fk_entry rs false target) (combine matched ts))).
Proof.
  induction matched as [|name rest IH]; intros [|t ts] L; simpl in *;
    try discriminate; (split; [|constructor]); auto.
  - apply IH. now injection L.
  - apply IH. now injection L.
Qed.

(** X14: when the request names no output frame, or names the model frame, or
    there is no TF client, the FK handler calls no transform at all: it never
    answers [FRAME_TRANSFORM_FAILURE], and every pose of the response is the
    link's global transform, expressed in the model frame. *)
Theorem computeFKService_model_frame (req : GetPositionFK_Request C) :
  frame_id (fk_header req) = ""
  \/ sameFrame (frame_id (fk_header req)) getModelFrame = true
  \/ getTFClient = false ->
  let out := snd (result (computeFKService req fresh_fk_response)) in
  res_error_code out <> FRAME_TRANSFORM_FAILURE
  /\ existsb is_transform_event (events (computeFKService req fresh_fk_response)) = false
  /\ Forall2 (fun name ps =>
                 frame_id (header ps) = getModelFrame
                 /\ pose ps = toMsg (getGlobalLinkTransform (fk_state req) name))
        (res_fk_link_names out) (res_pose_stamped out).
Proof.
  intro H.
  assert (D : fk_do_transform req = false).
  { unfold fk_do_transform. destruct H as [H | [H | H]]; rewrite H; simpl;
      rewrite ?andb_false_r; reflexivity. }
  cbv zeta.
  destruct (fk_link_names req) as [|n l] eqn:N.
  - unfold result, events, run, computeFKService. rewrite N. simpl.
    repeat split; [discriminate|constructor].
  - assert (Hne : fk_link_names req <> []) by (rewrite N; discriminate).
    rewrite (computeFKService_nonempty _ _ Hne), computeFK_links_trace.
    destruct (computeFK_links_result req) as [ts [L R]]. cbv zeta in R.
    rewrite R, D. simpl snd. cbn [res_error_code res_fk_link_names res_pose_stamped].
    unfold fk_entries.
    destruct (fk_entries_model_frame (fk_state req) (frame_id (fk_header req)) _ ts L)
      as [E F].
    rewrite E. split.
    + destruct (forallb _ _); discriminate.
    + split; [|exact F].
      unfold fk_prologue. rewrite existsb_app. simpl.
      apply existsb_link_events_no_transform.
Qed.

(** X23: the FK handler always returns true, and whatever the request and
    the incoming response its error code is one of [SUCCESS],
    [INVALID_LINK_NAME] and [FRAME_TRANSFORM_FAILURE]. *)
Theorem computeFKService_codes
    (req : GetPositionFK_Request C) (res : GetPositionFK_Response C) :
  fst (result (computeFKService req res)) = true
  /\ (res_error_code (snd (result (computeFKService req res))) = SUCCESS
      \/ res_error_code (snd (result (computeFKService req res))) = INVALID_LINK_NAME
      \/ res_error_code (snd (result (computeFKService req res)))
         = FRAME_TRANSFORM_FAILURE).
Proof.
  destruct (fk_link_names req) as [|n l] eqn:N.
  - unfold result, run, computeFKService. rewrite N. simpl. auto.
  - assert (Hne : fk_link_names req <> []) by (rewrite N; discriminate).
    rewrite (computeFKService_nonempty _ _ Hne).
    unfold result, run, computeFK_links, bind, emit, ret. simpl.
    match goal with
    | |- context [fk_links ?n ?rs ?d ?tg ?df ?p ?l ?b ?h] =>
        destruct (fk_links n rs d tg df p l b h) as [[[poses links] tfp] tr']
    end.
    simpl. split; [reflexivity|].
    destruct tfp; [auto|]. destruct (_ =? _)%nat; auto.
Qed.

(** ** The lock is always released; what each error code means *)

Lemma lock_depth_from_app (d : nat) (a b : list Event) :
  lock_depth_from d (a ++ b) = lock_depth_from (lock_depth_from d a) b.
Proof.
  revert d. induction a as [|x a IH]; intro d; simpl; [reflexivity|].
  destruct x; apply IH.
Qed.

Lemma filter_lock_free (tr : list Event) :
  forallb not_lock tr = true -> filter is_lock_event tr = [].
Proof.
  induction tr as [|x tr IH]; simpl; [reflexivity|].
  intro H. apply andb_true_iff in H. destruct H as [Hx Ht].
  unfold not_lock in Hx. apply negb_true_iff in Hx. now rewrite Hx, IH.
Qed.

(** X9: on every path, errors included, an IK request takes the read lock
    exactly once and releases it exactly once, acquisition first: no lock is
    held when the handler returns. *)
Theorem computeIKService_releases_lock
    (req : PositionIKRequest C) (res : GetPositionIK_Response C) :
  filter is_lock_event (events (computeIKService req res)) = [EvLockRO; EvUnlockRO]
  /\ lock_depth (events (computeIKService req res)) = 0.
Proof.
  rewrite computeIKService_events.
  assert (Hbody : forallb not_lock (events (ik_body req res)) = true)
    by (apply only_events, computeIK_lock_free).
  pose proof (filter_lock_free _ Hbody) as F.
  unfold lock_depth.
  destruct (keeps_lock req); unfold locked_prefix, snapshot_prefix;
    rewrite !filter_app, F, !lock_depth_from_app; simpl.
  - destruct (lock_free_depth 1 _ Hbody) as [D _]. now rewrite D.
  - destruct (lock_free_depth 0 _ Hbody) as [D _]. now rewrite D.
Qed.

Lemma computeIK_code (req : PositionIKRequest C) (o : IKOut)
    (cb : GroupStateValidityCallbackFn) :
  exists solver_ok : bool,
    out_error_code (result (computeIK req o cb)) =
      match getJointModelGroup (out_rs o) (group_name req) with
      | None => INVALID_GROUP_NAME
      | Some _ =>
          if negb (multi_pose req)
             || (List.length (pose_stamped_vector req) =? List.length (ik_link_names req))%nat
          then if forallb (transforms_ok getModelFrame) (ik_poses req)
               then if solver_ok then SUCCESS else NO_IK_SOLUTION
               else FRAME_TRANSFORM_FAILURE
          else INVALID_LINK_NAME
      end.
Proof.
  unfold result. rewrite computeIK_run.
  destruct (getJointModelGroup (out_rs o) (group_name req)) as [jmg|];
    [|now exists true].
  unfold ik_branch, ik_poses. simpl.
  destruct (multi_pose req); simpl.
  - unfold result. rewrite computeIK_multi_exact.
    destruct (_ =? _)%nat; simpl; [|now exists true].
    destruct (forallb _ _); [|now exists true].
    cbv zeta. simpl. rewrite solved_code. eexists. reflexivity.
  - unfold result. rewrite computeIK_single_run. unfold transforms_ok.
    destruct (tf_transform (single_pose req) getModelFrame); simpl; [|now exists true].
    rewrite solved_code. eexists. reflexivity.
Qed.

(** X10: what each IK error code means.  [INVALID_GROUP_NAME]: the group does
    not resolve.  [INVALID_LINK_NAME]: the group resolves and the request has
    more than one pose and a different number of link names.
    [FRAME_TRANSFORM_FAILURE]: those checks pass and some pose the request
    uses does not transform into the model frame.  [SUCCESS] or
    [NO_IK_SOLUTION]: all checks pass and every pose transforms. *)
Theorem computeIKService_error_code_meaning
    (req : PositionIKRequest C) (res : GetPositionIK_Response C) :
  let code := error_code (snd (result (computeIKService req res))) in
  let resolved :=
    match getJointModelGroup (getCurrentState locked_scene) (group_name req) with
    | Some _ => true
    | None => false
    end in
  let counts_ok :=
    negb (multi_pose req)
    || (List.length (pose_stamped_vector req) =? List.length (ik_link_names req))%nat in
  let poses_ok := forallb (transforms_ok getModelFrame) (ik_poses req) in
  (code = INVALID_GROUP_NAME <-> resolved = false)
  /\ (code = INVALID_LINK_NAME <-> resolved = true /\ counts_ok = false)
  /\ (code = FRAME_TRANSFORM_FAILURE <->
      resolved = true /\ counts_ok = true /\ poses_ok = false)
  /\ (code = SUCCESS \/ code = NO_IK_SOLUTION <->
      resolved = true /\ counts_ok = true /\ poses_ok = true).
Proof.
  cbv zeta. rewrite computeIKService_result. simpl snd. simpl error_code.
  unfold ik_body.
  destruct (computeIK_code req (ik_out0 res) (ik_callback req)) as [ok E].
  rewrite E. change (out_rs (ik_out0 res)) with (getCurrentState locked_scene).
  destruct (getJointModelGroup (getCurrentState locked_scene) (group_name req));
    destruct (negb (multi_pose req) || (_ =? _)%nat);
    destruct (forallb (transforms_ok getModelFrame) (ik_poses req));
    destruct ok;
    repeat split; intros; try discriminate; auto;
    repeat match goal with
           | H : _ /\ _ |- _ => destruct H
           | H : _ \/ _ |- _ => destruct H
           end; try discriminate.
Qed.
End DispatchProperties.

(** * Further runs on the bench robot *)

Section DispatchRuns.
#[local] Existing Instance Bench.arm.

Lemma one_pose_vector_witness :
  pose_stamped_vector Bench2.req_one_vector = [Bench.at_frame "map" 4]
  /\ run (computeIKService Bench2.req_one_vector Bench.fresh_ik_response) =
       run (computeIKService
              (as_scalar_request Bench2.req_one_vector (Bench.at_frame "map" 4)
                 (hd "" (ik_link_names Bench2.req_one_vector)))
              Bench.fresh_ik_response).
Proof.
  split; [reflexivity|].
  apply (computeIKService_one_pose_vector Bench2.req_one_vector Bench.fresh_ik_response).
  reflexivity.
Defined.

(** The run behind the witness: the named-tip solver is called for "tip" on
    the vector's pose; the scalar pose in the unknown frame is never
    transformed. *)
Example one_pose_vector_run :
  run (computeIKService Bench2.req_one_vector Bench.fresh_ik_response) =
    ((true, mkIKResponse [4%Z] SUCCESS),
     [EvUpdateFrameTransforms; EvLockRO; EvGetCurrentState; EvUnlockRO;
      EvGetJointModelGroup "arm"; EvPerformTransform "map" "base";
      EvSetFromIK (IKPoseTip "tip"); EvRobotStateToRobotStateMsg]).
Proof. reflexivity. Qed.

Lemma multi_pose_solve_witness :
  getJointModelGroup (getCurrentState locked_scene) (group_name Bench2.req_two_poses)
    = Some "arm"%string
  /\ multi_pose Bench2.req_two_poses = true
  /\ List.length (pose_stamped_vector Bench2.req_two_poses)
     = List.length (ik_link_names Bench2.req_two_poses)
  /\ forallb (transforms_ok getModelFrame) (pose_stamped_vector Bench2.req_two_poses) = true
  /\ (let r := setFromIK_poses
                 (out_rs (merged Bench2.req_two_poses (ik_out0 Bench.fresh_ik_response)))
                 "arm"%string
                 (converted getModelFrame (pose_stamped_vector Bench2.req_two_poses))
                 (ik_link_names Bench2.req_two_poses)
                 (sec (timeout Bench2.req_two_poses))
                 (ik_callback Bench2.req_two_poses) in
      List.length (converted getModelFrame (pose_stamped_vector Bench2.req_two_poses))
        = List.length (pose_stamped_vector Bench2.req_two_poses)
      /\ error_code (snd (result (computeIKService Bench2.req_two_poses
                                    Bench.fresh_ik_response)))
         = (if fst r then SUCCESS else NO_IK_SOLUTION)
      /\ (fst r = true ->
          solution (snd (result (computeIKService Bench2.req_two_poses
                                   Bench.fresh_ik_response)))
          = robotStateToRobotStateMsg (snd r) (solution Bench.fresh_ik_response) false)
      /\ filter is_solver_event
           (events (computeIKService Bench2.req_two_poses Bench.fresh_ik_response))
         = [EvSetFromIK (IKPoses (ik_link_names Bench2.req_two_poses))]
      /\ filter is_transform_event
           (events (computeIKService Bench2.req_two_poses Bench.fresh_ik_response))
         = map (transform_event getModelFrame) (pose_stamped_vector Bench2.req_two_poses)).
Proof.
  repeat (split; [reflexivity|]).
  apply (computeIKService_multi_pose_solve Bench2.req_two_poses Bench.fresh_ik_response
           "arm"%string); reflexivity.
Defined.

Lemma single_pose_solve_witness :
  getJointModelGroup (getCurrentState locked_scene) (group_name Bench.req_avoid)
    = Some "arm"%string
  /\ multi_pose Bench.req_avoid = false
  /\ tf_transform (single_pose Bench.req_avoid) getModelFrame
     = Some (Bench.at_frame "base" 3)
  /\ (let o := merged Bench.req_avoid (ik_out0 Bench.fresh_ik_response) in
      let r := if String.eqb (single_ik_link Bench.req_avoid) ""
               then setFromIK (out_rs o) "arm"%string (pose (Bench.at_frame "base" 3))
                      (sec (timeout Bench.req_avoid)) (ik_callback Bench.req_avoid)
               else setFromIK_tip (out_rs o) "arm"%string (pose (Bench.at_frame "base" 3))
                      (single_ik_link Bench.req_avoid)
                      (sec (timeout Bench.req_avoid)) (ik_callback Bench.req_avoid) in
      error_code (snd (result (computeIKService Bench.req_avoid Bench.fresh_ik_response)))
        = (if fst r then SUCCESS else NO_IK_SOLUTION)
      /\ (fst r = true ->
          solution (snd (result (computeIKService Bench.req_avoid
                                   Bench.fresh_ik_response)))
          = robotStateToRobotStateMsg (snd r) (solution Bench.fresh_ik_response) false)
      /\ filter is_solver_event
           (events (computeIKService Bench.req_avoid Bench.fresh_ik_response))
         = [EvSetFromIK (if String.eqb (single_ik_link Bench.req_avoid) ""
                         then IKPose else IKPoseTip (single_ik_link Bench.req_avoid))]
      /\ filter is_transform_event
           (events (computeIKService Bench.req_avoid Bench.fresh_ik_response))
         = [EvPerformTransform (frame_id (header (single_pose Bench.req_avoid)))
              getModelFrame]).
Proof.
  repeat (split; [reflexivity|]).
  apply (computeIKService_single_pose_solve Bench.req_avoid Bench.fresh_ik_response
           "arm"%string (Bench.at_frame "base" 3)); reflexivity.
Defined.

Lemma empty_constraint_set_witness :
  avoid_collisions Bench2.req_unusable_constraint = false
  /\ @isEmpty_constraints Bench2.picky_arm (constraints Bench2.req_unusable_constraint)
     = false
  /\ @kset_empty Bench2.picky_arm (ik_kset Bench2.req_unusable_constraint) = true
  /\ exists cb,
       (forall st jmg sol,
           cb st jmg sol = (true, @candidate_state Bench2.picky_arm st jmg sol))
       /\ run (computeIKService Bench2.req_unusable_constraint Bench2.picky_response) =
            ((true,
              mkIKResponse
                (out_solution
                   (result (computeIK Bench2.req_unusable_constraint
                              (ik_out0 Bench2.picky_response) (Some cb))))
                (out_error_code
                   (result (computeIK Bench2.req_unusable_constraint
                              (ik_out0 Bench2.picky_response) (Some cb))))),
             [EvUpdateFrameTransforms; EvLockRO; EvGetCurrentState; EvKsetAdd]
               ++ events (computeIK Bench2.req_unusable_constraint
                            (ik_out0 Bench2.picky_response) (Some cb))
               ++ [EvUnlockRO]).
Proof.
  repeat (split; [reflexivity|]).
  apply (computeIKService_empty_constraint_set Bench2.req_unusable_constraint
           Bench2.picky_response); reflexivity.
Defined.

(** The run behind the witness: the lock is kept across the solve although
    nothing is checked. *)
Example empty_constraint_set_run :
  run (computeIKService Bench2.req_unusable_constraint Bench2.picky_response) =
    ((true, mkIKResponse (C := Bench2.picky_arm) [3%Z] SUCCESS),
     [EvUpdateFrameTransforms; EvLockRO; EvGetCurrentState; EvKsetAdd;
      EvGetJointModelGroup "arm"; EvPerformTransform "base" "base";
      EvSetFromIK IKPose; EvRobotStateToRobotStateMsg; EvUnlockRO]).
Proof. reflexivity. Qed.

Lemma fk_trace_witness :
  fk_link_names Bench.fk_bad_frame <> []
  /\ (events (computeFKService Bench.fk_bad_frame Bench2.used_fk_response) =
        [EvUpdateFrameTransforms; EvLockRO; EvGetCurrentState; EvUnlockRO;
         EvRobotStateMsgToRobotState]
        ++ flat_map (link_events (fk_state Bench.fk_bad_frame)
                       (fk_do_transform Bench.fk_bad_frame)
                       (frame_id (fk_header Bench.fk_bad_frame)))
             (fk_link_names Bench.fk_bad_frame)
      /\ lock_depth (events (computeFKService Bench.fk_bad_frame Bench2.used_fk_response))
         = 0).
Proof.
  split; [discriminate|].
  apply (computeFKService_trace Bench.fk_bad_frame Bench2.used_fk_response). discriminate.
Defined.

Lemma fk_appends_witness :
  fk_link_names Bench.fk_bad_frame <> []
  /\ exists ts,
       let rs := fk_state Bench.fk_bad_frame in
       let matched := filter (hasLinkModel rs) (fk_link_names Bench.fk_bad_frame) in
       let entries :=
         fk_entries rs (fk_do_transform Bench.fk_bad_frame)
           (frame_id (fk_header Bench.fk_bad_frame))
           (fk_link_names Bench.fk_bad_frame) ts in
       let out := snd (result (computeFKService Bench.fk_bad_frame
                                 Bench2.used_fk_response)) in
       List.length ts = List.length matched
       /\ res_pose_stamped out
          = res_pose_stamped Bench2.used_fk_response ++ map fst entries
       /\ res_fk_link_names out = res_fk_link_names Bench2.used_fk_response ++ matched
       /\ res_error_code out =
            (if existsb snd entries then FRAME_TRANSFORM_FAILURE
             else if (List.length (res_fk_link_names Bench2.used_fk_response ++ matched)
                      =? List.length (fk_link_names Bench.fk_bad_frame))%nat
                  then SUCCESS else INVALID_LINK_NAME).
Proof.
  split; [discriminate|].
  apply (computeFKService_appends Bench.fk_bad_frame Bench2.used_fk_response). discriminate.
Defined.

Lemma fk_success_witness :
  fk_link_names Bench2.fk_two_links <> []
  /\ (let out := snd (result (computeFKService Bench2.fk_two_links fresh_fk_response)) in
      (res_error_code out = SUCCESS ->
       res_fk_link_names out = fk_link_names Bench2.fk_two_links
       /\ List.length (res_pose_stamped out)
          = List.length (fk_link_names Bench2.fk_two_links))
      /\ (res_error_code out = INVALID_LINK_NAME ->
          exists name, In name (fk_link_names Bench2.fk_two_links)
                       /\ hasLinkModel (fk_state Bench2.fk_two_links) name = false)
      /\ (forallb (hasLinkModel (fk_state Bench2.fk_two_links))
            (fk_link_names Bench2.fk_two_links) = false ->
          res_error_code out <> SUCCESS)).
Proof.
  split; [discriminate|].
  apply (computeFKService_success_is_complete Bench2.fk_two_links). discriminate.
Defined.

Example fk_success_run :
  res_error_code (snd (result (computeFKService Bench2.fk_two_links fresh_fk_response)))
    = SUCCESS.
Proof. reflexivity. Qed.

Lemma fk_model_frame_witness :
  (frame_id (fk_header Bench2.fk_model_frame) = ""%string
   \/ sameFrame (frame_id (fk_header Bench2.fk_model_frame)) getModelFrame = true
   \/ getTFClient = false)
  /\ (let out := snd (result (computeFKService Bench2.fk_model_frame
                                fresh_fk_response)) in
      res_error_code out <> FRAME_TRANSFORM_FAILURE
      /\ existsb is_transform_event
           (events (computeFKService Bench2.fk_model_frame fresh_fk_response)) = false
      /\ Forall2 (fun name ps =>
                    frame_id (header ps) = getModelFrame
                    /\ pose ps = toMsg (getGlobalLinkTransform
                                          (fk_state Bench2.fk_model_frame) name))
           (res_fk_link_names out) (res_pose_stamped out)).
Proof.
  split; [left; reflexivity|].
  apply (computeFKService_model_frame Bench2.fk_model_frame). left. reflexivity.
Defined.
End DispatchRuns.

(** * Properties of the profiler *)

Module ProfilerFacts.
Import Profiler.
Local Open Scope Z_scope.

(** ** [std::map] as a sorted list *)
Section StdMapFacts.
Context {K V : Type} (eqb ltb : K -> K -> bool) (O : KeyOrder eqb ltb).

Lemma key_eqb_refl (k : K) : eqb k k = true.
Proof. now apply (key_eqb_eq _ _ O). Qed.

Lemma key_eqb_false (a b : K) : a <> b -> eqb a b = false.
Proof.
  intro H. destruct (eqb a b) eqn:E; [|reflexivity].
  apply (key_eqb_eq _ _ O) in E. contradiction.
Qed.

Lemma key_ltb_neq (a b : K) : ltb a b = true -> eqb a b = false.
Proof.
  intro H. destruct (eqb a b) eqn:E; [|reflexivity].
  apply (key_eqb_eq _ _ O) in E. subst.
  now rewrite (key_ltb_irrefl _ _ O) in H.
Qed.

Lemma is_map_tail (e : K * V) (m : list (K * V)) :
  is_map ltb (e :: m) = true -> is_map ltb m = true.
Proof.
  destruct e as [k v], m as [|[k' v'] m]; simpl; [reflexivity|].
  intro H. now apply andb_true_iff in H.
Qed.

Lemma is_map_above (k : K) (v : V) (m : list (K * V)) :
  is_map ltb ((k, v) :: m) = true -> Forall (fun e => ltb k (fst e) = true) m.
Proof.
  revert k v. induction m as [|[k' v'] m IH]; intros k v H; constructor.
  - simpl in *. now apply andb_true_iff in H.
  - simpl fst. change (is_map ltb ((k, v) :: (k', v') :: m))
      with (ltb k k' && is_map ltb ((k', v') :: m)) in H.
    apply andb_true_iff in H. destruct H as [H1 H2].
    eapply Forall_impl; [|exact (IH k' v' H2)].
    intros e He. simpl in He. exact (key_ltb_trans _ _ O _ _ _ H1 He).
Qed.

Lemma find_below (k : K) (m : list (K * V)) :
  Forall (fun e => ltb k (fst e) = true) m -> find eqb k m = None.
Proof.
  induction 1 as [|[k' v'] m H _ IH]; simpl; [reflexivity|].
  simpl in H. now rewrite (key_ltb_neq _ _ H).
Qed.

Lemma find_at_key_same (k : K) (d : V) (f : V -> V) (m : list (K * V)) :
  is_map ltb m = true ->
  find eqb k (at_key eqb ltb k d f m)
  = Some (f (match find eqb k m with Some v => v | None => d end)).
Proof.
  induction m as [|[k' v] m IH]; intro S; simpl.
  - now rewrite key_eqb_refl.
  - destruct (eqb k k') eqn:E; simpl.
    + now rewrite E.
    + destruct (ltb k k') eqn:L; simpl.
      * rewrite key_eqb_refl.
        assert (F : find eqb k m = None).
        { apply find_below. eapply Forall_impl; [|exact (is_map_above _ _ _ S)].
          intros e He. simpl in He. exact (key_ltb_trans _ _ O _ _ _ L He). }
        now rewrite F.
      * rewrite E. apply IH. exact (is_map_tail _ _ S).
Qed.

Lemma find_at_key_other (k k' : K) (d : V) (f : V -> V) (m : list (K * V)) :
  k' <> k -> find eqb k' (at_key eqb ltb k d f m) = find eqb k' m.
Proof.
  intro N. induction m as [|[kh v] m IH]; simpl.
  - now rewrite (key_eqb_false _ _ N).
  - destruct (eqb k kh) eqn:E; simpl.
    + apply (key_eqb_eq _ _ O) in E. subst kh.
      now rewrite (key_eqb_false _ _ N).
    + destruct (ltb k kh); simpl.
      * now rewrite (key_eqb_false _ _ N).
      * now rewrite IH.
Qed.

Lemma at_key_head (k : K) (d : V) (f : V -> V) (m : list (K * V)) (lo : K) :
  ltb lo k = true -> Forall (fun e => ltb lo (fst e) = true) m ->
  Forall (fun e => ltb lo (fst e) = true) (at_key eqb ltb k d f m).
Proof.
  intros Hk. induction 1 as [|[kh v] m H Hm IH]; simpl.
  - constructor; [exact Hk|constructor].
  - destruct (eqb k kh); [constructor; [exact H|exact Hm]|].
    destruct (ltb k kh).
    + constructor; [exact Hk|]. constructor; [exact H|exact Hm].
    + constructor; [exact H|exact IH].
Qed.

Lemma is_map_cons (k : K) (v : V) (m : list (K * V)) :
  Forall (fun e => ltb k (fst e) = true) m -> is_map ltb m = true ->
  is_map ltb ((k, v) :: m) = true.
Proof.
  intros F S. destruct m as [|[k' v'] m]; [reflexivity|].
  change (ltb k k' && is_map ltb ((k', v') :: m) = true).
  inversion F; subst. simpl in *. rewrite S. now rewrite H1.
Qed.

Lemma at_key_is_map (k : K) (d : V) (f : V -> V) (m : list (K * V)) :
  is_map ltb m = true -> is_map ltb (at_key eqb ltb k d f m) = true.
Proof.
  induction m as [|[kh v] m IH]; intro S; simpl; [reflexivity|].
  pose proof (is_map_above _ _ _ S) as A.
  pose proof (is_map_tail _ _ S) as T.
  destruct (eqb k kh) eqn:E.
  - now apply is_map_cons.
  - destruct (ltb k kh) eqn:L.
    + apply is_map_cons; [|exact S].
      constructor; [exact L|].
      eapply Forall_impl; [|exact A].
      intros e He. simpl in He. exact (key_ltb_trans _ _ O _ _ _ L He).
    + apply is_map_cons; [|now apply IH].
      apply at_key_head; [|exact A].
      exact (key_ltb_total _ _ O _ _ E L).
Qed.


End StdMapFacts.

(** The order on [std::string] keys. *)
Lemma string_order : KeyOrder String.eqb String.ltb.
Proof.
  constructor.
  - exact String.eqb_eq.
  - intro a. unfold String.ltb.
    assert (E : String.compare a a = Eq)
      by (now apply OrderedTypeEx.String_as_OT.cmp_eq).
    now rewrite E.
  - intros a b c. unfold String.ltb.
    destruct (String.compare a b) eqn:E1; try discriminate.
    destruct (String.compare b c) eqn:E2; try discriminate.
    intros _ _.
    apply OrderedTypeEx.String_as_OT.cmp_lt in E1, E2.
    pose proof (OrderedTypeEx.String_as_OT.lt_trans _ _ _ E1 E2) as L.
    apply OrderedTypeEx.String_as_OT.cmp_lt in L.
    unfold OrderedTypeEx.String_as_OT.cmp in L. now rewrite L.
  - intros a b E L. unfold String.ltb in *.
    rewrite String.compare_antisym.
    destruct (String.compare a b) eqn:Cab; try discriminate.
    + apply String.compare_eq_iff in Cab. subst.
      now rewrite String.eqb_refl in E.
    + reflexivity.
Qed.

Section ProfilerProperties.
Context {P : ProfilerParams}.

Lemma forallb_at_key {K V : Type} (eqb ltb : K -> K -> bool) (Q : V -> bool)
    (k : K) (d : V) (f : V -> V) (m : list (K * V)) :
  (forall v, Q v = true -> Q (f v) = true) -> Q (f d) = true ->
  forallb (fun e => Q (snd e)) m = true ->
  forallb (fun e => Q (snd e)) (at_key eqb ltb k d f m) = true.
Proof.
  intros Hf Hd. induction m as [|[kh v] m IH]; simpl; intro H.
  - now rewrite Hd.
  - apply andb_true_iff in H. destruct H as [Hv Hm].
    destruct (eqb k kh); simpl; [now rewrite (Hf _ Hv), Hm|].
    destruct (ltb k kh); simpl; [now rewrite Hd, Hv, Hm|].
    now rewrite Hv, IH.
Qed.

Lemma forallb_find {K V : Type} (eqb : K -> K -> bool) (Q : V -> bool)
    (k : K) (m : list (K * V)) (v : V) :
  forallb (fun e => Q (snd e)) m = true -> find eqb k m = Some v -> Q v = true.
Proof.
  induction m as [|[kh w] m IH]; simpl; [discriminate|].
  intro H. apply andb_true_iff in H. destruct H as [Hw Hm].
  destruct (eqb k kh); [intro E; injection E as <-; exact Hw|now apply IH].
Qed.

Lemma on_thread_wf (tid : ThreadId) (f : PerThread -> PerThread) (p : Profiler) :
  (forall t, thread_ok t = true -> thread_ok (f t) = true) ->
  wf p = true -> wf (on_thread tid f p) = true.
Proof.
  intros Hf H. unfold wf in *. apply andb_true_iff in H. destruct H as [H1 H2].
  unfold on_thread, set_data. simpl. apply andb_true_iff. split.
  - now apply (at_key_is_map _ _ tid_order).
  - apply (forallb_at_key tid_eqb tid_ltb thread_ok); auto.
Qed.

Lemma wf_unlock (p : Profiler) : wf (unlock p) = wf p.
Proof. reflexivity. Qed.

Ltac thread_ok_step :=
  let t := fresh "t" in
  let H := fresh "H" in
  intros t H; unfold thread_ok in *; simpl;
  repeat (apply andb_true_iff in H; destruct H as [H ?]);
  repeat (apply andb_true_iff; split); auto;
  apply (at_key_is_map _ _ string_order); auto.

(** X15: every operation keeps the invariant of the profiler's maps: thread
    ids, and the names of each thread's events, averages and timers, stay in
    strictly increasing key order. *)
Theorem operations_keep_maps_sorted (p : Profiler) :
  wf p = true ->
  (forall now p', start now p = Some p' -> wf p' = true)
  /\ (forall now p', stop now p = Some p' -> wf p' = true)
  /\ (forall now p', clear now p = Some p' -> wf p' = true)
  /\ (forall tid name times p', event tid name times p = Some p' -> wf p' = true)
  /\ (forall tid name value p', average tid name value p = Some p' -> wf p' = true)
  /\ (forall now tid name p', begin_ now tid name p = Some p' -> wf p' = true)
  /\ (forall now tid name p', end_ now tid name p = Some p' -> wf p' = true)
  /\ (forall now merge p' r, status now merge p = Some (p', r) -> wf p' = true).
Proof.
  intro W.
  assert (L : forall q, lock p = Some q -> wf q = true).
  { unfold lock. destruct (lock_ p); [discriminate|]. intros q E. now injection E as <-. }
  repeat split.
  - intros now p'. unfold start. destruct (lock p) as [q|] eqn:E; [|discriminate].
    intro S. injection S as <-. specialize (L q eq_refl).
    destruct (negb (running_ q)); exact L.
  - intros now p'. unfold stop. destruct (lock p) as [q|] eqn:E; [|discriminate].
    intro S. injection S as <-. specialize (L q eq_refl).
    destruct (running_ q); exact L.
  - intros now p'. unfold clear. destruct (lock p) as [q|]; [|discriminate].
    intro S. now injection S as <-.
  - intros tid name times p'. unfold event. destruct (lock p) as [q|] eqn:E; [|discriminate].
    intro S. injection S as <-. rewrite wf_unlock.
    apply on_thread_wf; [thread_ok_step|now apply L].
  - intros tid name value p'. unfold average.
    destruct (lock p) as [q|] eqn:E; [|discriminate].
    intro S. injection S as <-. rewrite wf_unlock.
    apply on_thread_wf; [thread_ok_step|now apply L].
  - intros now tid name p'. unfold begin_.
    destruct (lock p) as [q|] eqn:E; [|discriminate].
    intro S. injection S as <-. rewrite wf_unlock.
    apply on_thread_wf; [thread_ok_step|now apply L].
  - intros now tid name p'. unfold end_.
    destruct (lock p) as [q|] eqn:E; [|discriminate].
    intro S. injection S as <-. rewrite wf_unlock.
    apply on_thread_wf; [thread_ok_step|now apply L].
  - intros now merge p' r. unfold status, stop.
    destruct (lock p) as [q|] eqn:E; [|discriminate].
    specialize (L q eq_refl). unfold lock. simpl.
    intro S. injection S as <- _. destruct (running_ q); exact L.
Qed.

(** ** Event counters *)

Lemma thread_events_sorted (p : Profiler) (tid : ThreadId) :
  wf p = true ->
  is_map String.ltb
    (events (match find tid_eqb tid (data_ p) with
             | Some t => t
             | None => PerThread_new
             end)) = true.
Proof.
  intro W. unfold wf in W. apply andb_true_iff in W. destruct W as [_ W].
  destruct (find tid_eqb tid (data_ p)) as [t|] eqn:F; [|reflexivity].
  pose proof (forallb_find tid_eqb thread_ok tid (data_ p) t W F) as T.
  unfold thread_ok in T. apply andb_true_iff in T. destruct T as [T _].
  apply andb_true_iff in T. now destruct T.
Qed.

(** X16: [event(name, times)] called by a thread adds [times] to that thread's
    counter of [name], in [unsigned long] arithmetic and starting from zero
    when the counter is new; no other counter of any thread changes, the
    overall timer and the running flag are left alone, and the mutex is free
    again afterwards. *)
Theorem event_counts (p : Profiler) (tid : ThreadId) (name : string) (times : Z) :
  wf p = true -> lock_ p = false ->
  exists p',
    event tid name times p = Some p'
    /\ lock_ p' = false
    /\ event_count p' tid name = ulong (event_count p tid name + times)
    /\ (forall tid' name', tid' <> tid \/ name' <> name ->
        event_count p' tid' name' = event_count p tid' name')
    /\ running_ p' = running_ p
    /\ tinfo_ p' = tinfo_ p.
Proof.
  intros W L. unfold event, lock. rewrite L.
  eexists. split; [reflexivity|]. split; [reflexivity|].
  assert (Wd : is_map tid_ltb (data_ p) = true)
    by (unfold wf in W; apply andb_true_iff in W; tauto).
  pose proof (thread_events_sorted p tid W) as We.
  unfold event_count, unlock, on_thread, set_data. simpl.
  split; [|split; [|split; reflexivity]].
  - rewrite (find_at_key_same _ _ tid_order _ _ _ _ Wd). simpl.
    rewrite (find_at_key_same _ _ string_order _ _ _ _ We).
    destruct (find tid_eqb tid (data_ p)); reflexivity.
  - intros tid' name' N.
    destruct (tid_eqb tid' tid) eqn:E.
    + apply (key_eqb_eq _ _ tid_order) in E. subst tid'.
      destruct N as [N|N]; [now elim N|].
      rewrite (find_at_key_same _ _ tid_order _ _ _ _ Wd). simpl.
      rewrite (find_at_key_other _ _ string_order _ _ _ _ _ N).
      destruct (find tid_eqb tid (data_ p)); reflexivity.
    + assert (N' : tid' <> tid).
      { intro X. subst. now rewrite (key_eqb_refl _ _ tid_order) in E. }
      now rewrite (find_at_key_other _ _ tid_order _ _ _ _ _ N').
Qed.


(** X18: after [clear], counting starts from zero: [clear] followed by
    [event(name, times)] leaves exactly one counter, holding [times] in
    [unsigned long] arithmetic, and the running flag is as before the
    [clear]. *)
Theorem clear_then_event (p : Profiler) (now : PTime) (tid : ThreadId)
    (name : string) (times : Z) :
  lock_ p = false ->
  exists p1 p2,
    clear now p = Some p1
    /\ event tid name times p1 = Some p2
    /\ event_count p2 tid name = ulong times
    /\ (forall tid' name', tid' <> tid \/ name' <> name -> event_count p2 tid' name' = 0)
    /\ running_ p2 = running_ p.
Proof.
  intro L. unfold clear, event, lock. rewrite L. simpl.
  eexists. eexists. split; [reflexivity|]. split; [reflexivity|].
  unfold event_count, unlock, on_thread, set_data. simpl.
  rewrite (key_eqb_refl _ _ tid_order). simpl.
  rewrite (key_eqb_refl _ _ string_order).
  split; [reflexivity|]. split; [|reflexivity].
  intros tid' name' N.
  destruct (tid_eqb tid' tid) eqn:E; [|reflexivity].
  apply (key_eqb_eq _ _ tid_order) in E. subst tid'.
  destruct N as [N|N]; [now elim N|].
  simpl. now rewrite (key_eqb_false _ _ string_order _ _ N).
Qed.

(** ** The overall timer *)

(** X19: [start] and [stop] are idempotent.  With the mutex free both return;
    after [start] the profiler runs and a further [start] changes nothing (the
    clock is not restarted), after [stop] it does not run and a further
    [stop] changes nothing (no time is counted twice); neither touches the
    per-thread data. *)
Theorem start_stop_idempotent (p : Profiler) (t1 t2 : PTime) :
  lock_ p = false ->
  (exists p1,
      start t1 p = Some p1 /\ running_ p1 = true /\ lock_ p1 = false
      /\ data_ p1 = data_ p /\ start t2 p1 = Some p1)
  /\ (exists p2,
        stop t1 p = Some p2 /\ running_ p2 = false /\ lock_ p2 = false
        /\ data_ p2 = data_ p /\ stop t2 p2 = Some p2).
Proof.
  intro L. destruct p as [l r ti d pr]. simpl in L. subst l.
  unfold start, stop, lock, unlock. simpl.
  split; eexists; (split; [reflexivity|]); destruct r; simpl; repeat split.
Qed.

(** ** Threads do not disturb each other *)

(** X20: the four per-thread operations ([event], [average], [begin], [end])
    return when the mutex is free, release it again, and change nothing but
    the calling thread's own entry: the data of every other thread, the
    overall timer and the running flag are as before. *)
Theorem per_thread_operations_are_isolated
    (p : Profiler) (now : PTime) (tid : ThreadId) (name : string)
    (times : Z) (value : Double) :
  lock_ p = false ->
  let untouched (r : option Profiler) :=
    exists p',
      r = Some p' /\ lock_ p' = false /\ running_ p' = running_ p
      /\ tinfo_ p' = tinfo_ p
      /\ forall tid', tid' <> tid ->
           find tid_eqb tid' (data_ p') = find tid_eqb tid' (data_ p) in
  untouched (event tid name times p)
  /\ untouched (average tid name value p)
  /\ untouched (begin_ now tid name p)
  /\ untouched (end_ now tid name p).
Proof.
  intros L untouched. subst untouched.
  unfold event, average, begin_, end_, lock. rewrite L.
  repeat split; eexists; (split; [reflexivity|]); repeat split;
    intros tid' N; unfold unlock, on_thread, set_data; simpl;
    exact (find_at_key_other _ _ tid_order _ _ _ _ _ N).
Qed.

(** ** The merged statistics *)

Lemma events_combine_avg (c : PerThread) (l : list (string * AvgInfo Double)) :
  events (combine_avg c l) = events c.
Proof.
  unfold combine_avg. revert c. induction l as [|e l IH]; intro c; simpl; [reflexivity|].
  now rewrite IH.
Qed.

Lemma events_combine_time (c : PerThread) (l : list (string * TimeInfo Duration PTime)) :
  events (combine_time c l) = events c.
Proof.
  unfold combine_time. revert c. induction l as [|e l IH]; intro c; simpl; [reflexivity|].
  now rewrite IH.
Qed.

(** Adding one thread's events: the map stays sorted and the count of a
    name grows by the sum of the entries under that name. *)
Lemma combine_events_count (name : string) (evs : list (string * Z)) :
  forall (c : PerThread) (x : Z),
    is_map String.ltb (events c) = true ->
    count_in (events c) name = ulong x ->
    is_map String.ltb (events (combine_events c evs)) = true
    /\ count_in (events (combine_events c evs)) name = ulong (x + sum_of name evs).
Proof.
  unfold combine_events.
  induction evs as [|[k v] evs IH]; intros c x S E.
  - simpl. split; [exact S|]. unfold sum_of. simpl. now rewrite Z.add_0_r.
  - simpl fold_left.
    match goal with
    | |- context [fold_left ?f evs ?c'] =>
        assert (S' : is_map String.ltb (events c') = true)
          by (simpl; now apply (at_key_is_map _ _ string_order))
    end.
    unfold sum_of. simpl List.filter. simpl fst in *.
    destruct (String.eqb k name) eqn:K.
    + apply String.eqb_eq in K. subst k.
      match goal with
      | |- context [fold_left ?f evs ?c'] =>
          destruct (IH c' (x + v) S') as [I1 I2]
      end.
      { simpl. unfold count_in in *.
        rewrite (find_at_key_same _ _ string_order _ _ _ _ S).
        rewrite E. unfold ulong. now rewrite Zplus_mod_idemp_l. }
      split; [exact I1|]. rewrite I2. simpl. unfold sum_of. f_equal. lia.
    + match goal with
      | |- context [fold_left ?f evs ?c'] =>
          destruct (IH c' x S') as [I1 I2]
      end.
      { simpl. unfold count_in in *.
        assert (N : name <> k).
        { intro X. subst. now rewrite String.eqb_refl in K. }
        now rewrite (find_at_key_other _ _ string_order _ _ _ _ _ N). }
      split; [exact I1|]. exact I2.
Qed.

Lemma combined_count_from (name : string) (data : list (ThreadId * PerThread)) :
  forall (c : PerThread) (x : Z),
    is_map String.ltb (events c) = true ->
    count_in (events c) name = ulong x ->
    count_in
      (events
         (fold_left
            (fun c it => combine_time
                           (combine_avg (combine_events c (events (snd it)))
                              (avg (snd it)))
                           (time (snd it)))
            data c)) name
    = ulong (x + sum_over_threads name data).
Proof.
  induction data as [|[tid t] data IH]; intros c x S E; simpl.
  - unfold sum_over_threads. simpl. now rewrite Z.add_0_r.
  - destruct (combine_events_count name (events t) c x S E) as [S1 E1].
    rewrite (IH _ (x + sum_of name (events t))).
    + unfold sum_over_threads. simpl. f_equal. lia.
    + now rewrite events_combine_time, events_combine_avg.
    + now rewrite events_combine_time, events_combine_avg.
Qed.

(** X21: in the merged statistics the count of an event name is the sum, in
    [unsigned long] arithmetic, of the counts recorded under that name by all
    threads. *)
Theorem combined_event_count (data : list (ThreadId * PerThread)) (name : string) :
  count_in (events (combined data)) name = ulong (sum_over_threads name data).
Proof.
  unfold combined.
  rewrite (combined_count_from name data PerThread_new 0); [reflexivity|reflexivity|].
  unfold ulong. now rewrite Zmod_0_l.
Qed.

(** ** status *)

(** X22: [status] returns when the mutex is free (it stops the profiler before
    it takes the mutex itself), leaves the profiler stopped, with
    [printOnDestroy_] off, the mutex free and the per-thread data untouched,
    and reports one block per thread, in thread order, or the single merged
    block.  It is repeatable: a further [status] changes nothing and reports
    the same total time and, for the same [merge], the same blocks. *)
Theorem status_is_repeatable (p : Profiler) (t1 t2 : PTime) (merge : bool) :
  lock_ p = false ->
  exists p' r,
    status t1 merge p = Some (p', r)
    /\ running_ p' = false /\ printOnDestroy_ p' = false /\ lock_ p' = false
    /\ data_ p' = data_ p
    /\ blocks r = (if merge then [(None, combined (data_ p))]
                   else map (fun it => (Some (fst it), snd it)) (data_ p))
    /\ status t2 merge p' = Some (p', r).
Proof.
  intro L. destruct p as [l r ti d pr]. simpl in L. subst l.
  unfold status, stop, lock, unlock. simpl.
  destruct r; simpl; eexists; eexists; repeat split.
Qed.
End ProfilerProperties.
End ProfilerFacts.

(** * Runs of the bench profiler *)
Module ProfilerRuns.
Import Profiler ProfilerFacts.
Local Open Scope Z_scope.
#[local] Existing Instance ProfilerBench.params.

Lemma keep_maps_sorted_witness :
  wf ProfilerBench.busy = true
  /\ ((forall now p', start now ProfilerBench.busy = Some p' -> wf p' = true)
      /\ (forall now p', stop now ProfilerBench.busy = Some p' -> wf p' = true)
      /\ (forall now p', clear now ProfilerBench.busy = Some p' -> wf p' = true)
      /\ (forall tid name times p',
             event tid name times ProfilerBench.busy = Some p' -> wf p' = true)
      /\ (forall tid name value p',
             average tid name value ProfilerBench.busy = Some p' -> wf p' = true)
      /\ (forall now tid name p',
             begin_ now tid name ProfilerBench.busy = Some p' -> wf p' = true)
      /\ (forall now tid name p',
             end_ now tid name ProfilerBench.busy = Some p' -> wf p' = true)
      /\ (forall now merge p' r,
             status now merge ProfilerBench.busy = Some (p', r) -> wf p' = true)).
Proof.
  split; [reflexivity|].
  apply (operations_keep_maps_sorted ProfilerBench.busy). reflexivity.
Defined.

Lemma event_counts_witness :
  wf ProfilerBench.busy = true
  /\ lock_ ProfilerBench.busy = false
  /\ exists p',
       event 2%nat "fk" 3 ProfilerBench.busy = Some p'
       /\ lock_ p' = false
       /\ event_count p' 2%nat "fk"
          = ulong (event_count ProfilerBench.busy 2%nat "fk" + 3)
       /\ (forall tid' name', tid' <> 2%nat \/ name' <> "fk"%string ->
           event_count p' tid' name' = event_count ProfilerBench.busy tid' name')
       /\ running_ p' = running_ ProfilerBench.busy
       /\ tinfo_ p' = tinfo_ ProfilerBench.busy.
Proof.
  split; [reflexivity|]. split; [reflexivity|].
  apply (event_counts ProfilerBench.busy 2%nat "fk" 3); reflexivity.
Defined.

(** The run behind the witness: thread 2 gets a new counter, placed before
    its counter "ik". *)
Example event_run :
  event 2%nat "fk" 3 ProfilerBench.busy =
    Some (mkProfiler false true (TimeInfo_set 100 TimeInfo_new)
            [(1%nat, mkPerThread [("fk"%string, 2); ("ik"%string, 5)] [] []);
             (2%nat, mkPerThread [("fk"%string, 3); ("ik"%string, 7)] [] [])]
            false).
Proof. reflexivity. Qed.


Lemma clear_then_event_witness :
  lock_ ProfilerBench.busy = false
  /\ exists p1 p2,
       clear 200 ProfilerBench.busy = Some p1
       /\ event 1%nat "ik" 4 p1 = Some p2
       /\ event_count p2 1%nat "ik" = ulong 4
       /\ (forall tid' name', tid' <> 1%nat \/ name' <> "ik"%string ->
           event_count p2 tid' name' = 0)
       /\ running_ p2 = running_ ProfilerBench.busy.
Proof.
  split; [reflexivity|].
  apply (clear_then_event ProfilerBench.busy 200 1%nat "ik" 4). reflexivity.
Defined.

Lemma start_stop_witness :
  lock_ ProfilerBench.idle = false
  /\ ((exists p1,
          start 10 ProfilerBench.idle = Some p1 /\ running_ p1 = true /\ lock_ p1 = false
          /\ data_ p1 = data_ ProfilerBench.idle /\ start 20 p1 = Some p1)
      /\ (exists p2,
            stop 10 ProfilerBench.idle = Some p2 /\ running_ p2 = false
            /\ lock_ p2 = false
            /\ data_ p2 = data_ ProfilerBench.idle /\ stop 20 p2 = Some p2)).
Proof.
  split; [reflexivity|].
  apply (start_stop_idempotent ProfilerBench.idle 10 20). reflexivity.
Defined.

Lemma isolation_witness :
  lock_ ProfilerBench.busy = false
  /\ (let untouched (r : option Profiler) :=
        exists p',
          r = Some p' /\ lock_ p' = false /\ running_ p' = running_ ProfilerBench.busy
          /\ tinfo_ p' = tinfo_ ProfilerBench.busy
          /\ forall tid', tid' <> 1%nat ->
               find tid_eqb tid' (data_ p') = find tid_eqb tid' (data_ ProfilerBench.busy) in
      untouched (event 1%nat "ik" 4 ProfilerBench.busy)
      /\ untouched (average 1%nat "ik" 8 ProfilerBench.busy)
      /\ untouched (begin_ 300 1%nat "ik" ProfilerBench.busy)
      /\ untouched (end_ 300 1%nat "ik" ProfilerBench.busy)).
Proof.
  split; [reflexivity|].
  apply (per_thread_operations_are_isolated ProfilerBench.busy 300 1%nat "ik" 4 8).
  reflexivity.
Defined.

(** The merged counters of the busy profiler: "ik" was counted 5 times by
    thread 1 and 7 times by thread 2. *)
Example combined_run :
  events (combined (data_ ProfilerBench.busy)) = [("fk"%string, 2); ("ik"%string, 12)].
Proof. reflexivity. Qed.

Lemma status_witness :
  lock_ ProfilerBench.busy = false
  /\ exists p' r,
       status 150 true ProfilerBench.busy = Some (p', r)
       /\ running_ p' = false /\ printOnDestroy_ p' = false /\ lock_ p' = false
       /\ data_ p' = data_ ProfilerBench.busy
       /\ blocks r = (if true then [(None, combined (data_ ProfilerBench.busy))]
                      else map (fun it => (Some (fst it), snd it))
                             (data_ ProfilerBench.busy))
       /\ status 160 true p' = Some (p', r).
Proof.
  split; [reflexivity|].
  apply (status_is_repeatable ProfilerBench.busy 150 160 true). reflexivity.
Defined.
End ProfilerRuns.
